(** * Payment / subscription ledger of the Django blogging backend

    A shallow embedding of the payment and subscription pipeline found in
    [backend/apps/payment] ([views.py], [signals.py], [tasks.py]) and
    [backend/apps/subscribe] ([serializers.py], [signals.py]).

    The database is a record of finite maps, one per table, together with
    a log of the rows written and a log of the calls made to the payment
    provider.  Views, signal receivers and periodic tasks are functions
    from a database to a response and a database.  Money amounts are
    exact decimals in the source and integers (minor units) here;
    timestamps are integers (seconds). *)

From stdpp Require Import gmap strings list fin_maps.
From Stdlib Require Import ZArith Ascii.

Open Scope Z_scope.

(** ** Status enumerations (the [choices] of the [status] columns) *)

Module PaymentStatus.
Inductive t := pending | processing | succeeded | failed | cancelled.
#[global] Instance eq_dec : EqDecision t.
Proof. solve_decision. Defined.
End PaymentStatus.

Module RefundStatus.
Inductive t := pending | succeeded | failed.
#[global] Instance eq_dec : EqDecision t.
Proof. solve_decision. Defined.
End RefundStatus.

Module WebhookStatus.
Inductive t := pending | processed | failed | ignored.
#[global] Instance eq_dec : EqDecision t.
Proof. solve_decision. Defined.
End WebhookStatus.

Module SubscriptionStatus.
Inductive t := pending | active | cancelled | expired.
#[global] Instance eq_dec : EqDecision t.
Proof. solve_decision. Defined.
End SubscriptionStatus.

(** ** Rows *)

Module Payment.
Record t := mk {
  id : Z;
  user : Z;
  amount : Z;
  currency : string;
  status : PaymentStatus.t;
  stripe_session_id : option string;
  subscription : option Z          (* foreign key, nullable *)
}.
Definition with_status (s : PaymentStatus.t) (p : t) : t :=
  mk (id p) (user p) (amount p) (currency p) s
     (stripe_session_id p) (subscription p).
End Payment.

Module Refund.
Record t := mk {
  id : Z;
  payment : Z;                     (* foreign key *)
  amount : Z;
  reason : string;
  status : RefundStatus.t;
  created_by : Z
}.
Definition with_status (s : RefundStatus.t) (r : t) : t :=
  mk (id r) (payment r) (amount r) (reason r) s (created_by r).
End Refund.

(** The provider's event object, as [stripe.Webhook.construct_event]
    returns it and as [WebhookEvent.data] stores it.  [type] separates
    the two event types the processor dispatches on from all others;
    [session] is the checkout session the event is about. *)
Module StripeEvent.
Inductive kind :=
| checkout_session_completed
| payment_failed
| other (name : string).
Record t := mk {
  id : string;
  type : kind;
  session : string;
  failure_reason : option string
}.
End StripeEvent.

Module WebhookEvent.
Record t := mk {
  external_event_id : string;      (* unique *)
  data : StripeEvent.t;
  status : WebhookStatus.t;
  created_at : Z
}.
Definition with_status (s : WebhookStatus.t) (e : t) : t :=
  mk (external_event_id e) (data e) s (created_at e).
End WebhookEvent.

Module Subscription.
Record t := mk {
  id : Z;
  user : Z;                        (* one-to-one *)
  plan_name : string;
  duration_days : Z;
  status : SubscriptionStatus.t;
  start_date : Z;
  end_date : Z;
  auto_renew : bool
}.
Definition with_status (s : SubscriptionStatus.t) (x : t) : t :=
  mk (id x) (user x) (plan_name x) (duration_days x) s
     (start_date x) (end_date x) (auto_renew x).
End Subscription.

Module Post.
Record t := mk {
  id : Z;
  author : Z;
  status : string;
  title : string
}.
End Post.

Module PinnedPost.
Record t := mk {
  user : Z;                        (* one-to-one *)
  post : Post.t;
  pinned_at : Z
}.
End PinnedPost.

Module SubscriptionHistory.
Record t := mk {
  subscription : Z;
  action : string;
  description : string;
  metadata : option (Z * string)   (* post_id, post_title *)
}.
End SubscriptionHistory.

(** ** The database *)

Inductive Table :=
| T_payment | T_refund | T_webhook_event
| T_subscription | T_pinned_post | T_subscription_history.

Inductive Write :=
| INSERT (tbl : Table)
| UPDATE (tbl : Table)
| DELETE (tbl : Table).

(** Calls that reach the payment provider. *)
Inductive StripeCall :=
| Call_retrieve_session (session_id : string)
| Call_refund (payment_id : Z) (amount : Z) (reason : string).

Record World := mkWorld {
  payments : gmap Z Payment.t;
  refunds : gmap Z Refund.t;
  webhook_events : gmap string WebhookEvent.t;   (* by external_event_id *)
  subscriptions : gmap Z Subscription.t;
  pinned_posts : gmap Z PinnedPost.t;            (* by user: one-to-one *)
  posts : gmap Z Post.t;
  history : list SubscriptionHistory.t;          (* append-only, oldest first *)
  writes : list Write;                           (* oldest first *)
  stripe_calls : list StripeCall;                (* oldest first *)
  clock : Z                                      (* timezone.now() *)
}.

Definition logged (x : Write) (w : World) : World :=
  mkWorld (payments w) (refunds w) (webhook_events w) (subscriptions w)
          (pinned_posts w) (posts w) (history w) (writes w ++ [x])
          (stripe_calls w) (clock w).

Definition called (c : StripeCall) (w : World) : World :=
  mkWorld (payments w) (refunds w) (webhook_events w) (subscriptions w)
          (pinned_posts w) (posts w) (history w) (writes w)
          (stripe_calls w ++ [c]) (clock w).

Definition put_payment (p : Payment.t) (w : World) : World :=
  mkWorld (<[Payment.id p := p]> (payments w)) (refunds w)
          (webhook_events w) (subscriptions w) (pinned_posts w) (posts w)
          (history w) (writes w) (stripe_calls w) (clock w).

Definition put_refund (r : Refund.t) (w : World) : World :=
  mkWorld (payments w) (<[Refund.id r := r]> (refunds w))
          (webhook_events w) (subscriptions w) (pinned_posts w) (posts w)
          (history w) (writes w) (stripe_calls w) (clock w).

Definition put_webhook_event (e : WebhookEvent.t) (w : World) : World :=
  mkWorld (payments w) (refunds w)
          (<[WebhookEvent.external_event_id e := e]> (webhook_events w))
          (subscriptions w) (pinned_posts w) (posts w)
          (history w) (writes w) (stripe_calls w) (clock w).

Definition put_subscription (s : Subscription.t) (w : World) : World :=
  mkWorld (payments w) (refunds w) (webhook_events w)
          (<[Subscription.id s := s]> (subscriptions w)) (pinned_posts w)
          (posts w) (history w) (writes w) (stripe_calls w) (clock w).

Definition drop_subscription (sid : Z) (w : World) : World :=
  mkWorld (payments w) (refunds w) (webhook_events w)
          (delete sid (subscriptions w)) (pinned_posts w)
          (posts w) (history w) (writes w) (stripe_calls w) (clock w).

Definition put_pinned_post (pp : PinnedPost.t) (w : World) : World :=
  mkWorld (payments w) (refunds w) (webhook_events w) (subscriptions w)
          (<[PinnedPost.user pp := pp]> (pinned_posts w))
          (posts w) (history w) (writes w) (stripe_calls w) (clock w).

Definition drop_pinned_post (u : Z) (w : World) : World :=
  mkWorld (payments w) (refunds w) (webhook_events w) (subscriptions w)
          (delete u (pinned_posts w))
          (posts w) (history w) (writes w) (stripe_calls w) (clock w).

Definition put_history (h : SubscriptionHistory.t) (w : World) : World :=
  mkWorld (payments w) (refunds w) (webhook_events w) (subscriptions w)
          (pinned_posts w) (posts w) (history w ++ [h]) (writes w)
          (stripe_calls w) (clock w).

(** [SubscriptionHistory.objects.create(...)] *)
Definition SubscriptionHistory_create (h : SubscriptionHistory.t) (w : World)
  : World :=
  logged (INSERT T_subscription_history) (put_history h w).

(** [payment.subscription]: the row the foreign key points to, which
    carries the key as its [id]; [None] is a null relation. *)
Definition payment_subscription (p : Payment.t) (w : World)
  : option Subscription.t :=
  sid ← Payment.subscription p;
  s ← subscriptions w !! sid;
  if bool_decide (Subscription.id s = sid) then Some s else None.

(** [user.pinned_post], the reverse side of the one-to-one field;
    [None] is [PinnedPost.DoesNotExist]. *)
Definition user_pinned_post (u : Z) (w : World) : option PinnedPost.t :=
  pp ← pinned_posts w !! u;
  if bool_decide (PinnedPost.user pp = u) then Some pp else None.

(** [user.subscription], the reverse side of the one-to-one field;
    [None] is [hasattr(user, "subscription")] being false. *)
Definition user_subscription (u : Z) (w : World) : option Subscription.t :=
  snd <$> (snd <$> list_find (λ kv, Subscription.user kv.2 = u)
                             (map_to_list (subscriptions w))).

(** ** Responses *)

Inductive Body :=
| B_empty
| B_error (msg : string)
| B_message (msg : string)
| B_errors (errors : string)                      (* serializer.errors *)
| B_refund (r : option Refund.t)                  (* RefundSerializer(refund).data *)
| B_status (payment_id : Z) (status : PaymentStatus.t)
           (subscription_activated : bool)
| B_not_found.

Record Response := mkResponse { status_code : Z; body : Body }.

(** [get_object_or_404] raises [Http404], which the framework answers
    with status 404; the [except Payment.DoesNotExist] clauses of the
    views are not reached. *)
Definition not_found : Response := mkResponse 404 B_not_found.

(** ** The payment provider

    The outcome of each provider call is a parameter of the development:
    [stripe.Webhook.construct_event] either raises one of the two errors
    the webhook view catches or returns the event; the gateway of §6
    answers [retrieve_session] and [refund_payment]. *)

Inductive Constructed :=
| ValueError
| SignatureVerificationError
| Event (event : StripeEvent.t).

Record SessionInfo := mkSessionInfo { session_status : string }.

Class Stripe := {
  construct_event : string → option string → Constructed;
  retrieve_session : string → option SessionInfo;
  refund_payment : Payment.t → Z → string → bool
}.

(** ** Code the sources import from modules that are not among them

    [payment/services.py]: the two service classes the views, the signal
    receivers and the tasks call. *)
Class PaymentService := {
  process_successful_payment : Payment.t → World → World;
  process_failed_payment : Payment.t → option string → World → World;
  cancel_subscription : Subscription.t → World → World
}.

Class WebhookService := {
  process_stripe_webhook : StripeEvent.t → World → bool * World
}.

(** [payment/models.py], [payment/serializers.py] and
    [subscribe/models.py]: the model properties and methods the sources
    use, and the validation of [RefundCreateSerializer]. *)
Class Models := {
  can_be_refunded : Payment.t → World → bool;
  refund_is_valid : Z → Z → string → World → bool;  (* payment_id, amount, reason *)
  process_refund : Refund.t → World → World;
  mark_as_processed : WebhookEvent.t → World → World;
  is_active : Subscription.t → World → bool;
  cancel : Subscription.t → World → World
}.

(** Modelled from the spec: the properties [Payment.is_pending] and
    [Payment.is_successful] of [payment/models.py]; §3 names the statuses
    and §4.2 calls [succeeded] the successful one. *)
Definition is_pending (p : Payment.t) : bool :=
  bool_decide (Payment.status p = PaymentStatus.pending).

Definition is_successful (p : Payment.t) : bool :=
  bool_decide (Payment.status p = PaymentStatus.succeeded).

(** Python truthiness of a nullable character field. *)
Definition truthy (s : option string) : bool :=
  match s with
  | Some x => negb (bool_decide (x = EmptyString))
  | None => false
  end.

(** The title between double quotes, as the f-strings of the history
    descriptions have it. *)
Definition quoted (s : string) : string :=
  String "034"%char s +:+ String "034"%char EmptyString.

(** ** [subscribe/signals.py] *)

(** [pinned_post_pre_delete] *)
Definition pinned_post_pre_delete (instance : PinnedPost.t) (w : World) : World :=
  match user_subscription (PinnedPost.user instance) w with
  | Some subscription =>
      SubscriptionHistory_create
        (SubscriptionHistory.mk (Subscription.id subscription) "post_unpinned"
           ("Post " +:+ quoted (Post.title (PinnedPost.post instance))
                    +:+ " unpinned")
           (Some (Post.id (PinnedPost.post instance),
                  Post.title (PinnedPost.post instance))))
        w
  | None => w
  end.

(** [instance.delete()] on a pinned post: the receiver, then the row. *)
Definition PinnedPost_delete (instance : PinnedPost.t) (w : World) : World :=
  logged (DELETE T_pinned_post)
         (drop_pinned_post (PinnedPost.user instance)
                           (pinned_post_pre_delete instance w)).

(** [subscription_pre_delete]: [instance.user.pinned_post] raises
    [PinnedPost.DoesNotExist] when the user has none. *)
Definition subscription_pre_delete (instance : Subscription.t) (w : World)
  : World :=
  match user_pinned_post (Subscription.user instance) w with
  | Some pinned_post => PinnedPost_delete pinned_post w
  | None => w
  end.

(** [instance.delete()] on a subscription: the receiver, then the row.
    What the deletion cascades to in other tables is declared in
    [subscribe/models.py] and is left out. *)
Definition Subscription_delete (instance : Subscription.t) (w : World) : World :=
  logged (DELETE T_subscription)
         (drop_subscription (Subscription.id instance)
                            (subscription_pre_delete instance w)).

Section Receivers.
Context {PS : PaymentService} {MD : Models}.

(** [pinned_post_post_save] *)
Definition pinned_post_post_save (instance : PinnedPost.t) (created : bool)
           (w : World) : World :=
  if created then
    match user_subscription (PinnedPost.user instance) w with
    | None => PinnedPost_delete instance w
    | Some subscription =>
        if negb (is_active subscription w) then PinnedPost_delete instance w
        else
          SubscriptionHistory_create
            (SubscriptionHistory.mk (Subscription.id subscription) "post_pinned"
               ("Post " +:+ quoted (Post.title (PinnedPost.post instance))
                        +:+ " pinned")
               (Some (Post.id (PinnedPost.post instance),
                      Post.title (PinnedPost.post instance))))
            w
    end
  else w.

(** ** [payment/signals.py] *)

(** [payment_pre_save]: the value of [instance._previous_status] after
    the receiver ([None]: the attribute is absent, [Some None]: it is
    Python's [None]).  [pk] is [None] for an instance never saved. *)
Definition payment_pre_save (pk : option Z)
           (attr : option (option PaymentStatus.t)) (w : World)
  : option (option PaymentStatus.t) :=
  match pk with
  | Some k =>
      if bool_decide (k = 0) then attr
      else Some (Payment.status <$> payments w !! k)
  | None => attr
  end.

(** [x in ['pending', 'processing']] *)
Definition pending_or_processing (x : option PaymentStatus.t) : bool :=
  match x with
  | Some PaymentStatus.pending | Some PaymentStatus.processing => true
  | _ => false
  end.

(** [payment_post_save] *)
Definition payment_post_save (instance : Payment.t) (created : bool)
           (attr : option (option PaymentStatus.t)) (w : World) : World :=
  match negb created, attr with
  | true, Some _previous_status =>
      if pending_or_processing _previous_status
         && bool_decide (Payment.status instance = PaymentStatus.succeeded)
      then process_successful_payment instance w
      else if pending_or_processing _previous_status
              && bool_decide (Payment.status instance = PaymentStatus.failed)
      then process_failed_payment instance None w
      else w
  | _, _ => w
  end.

(** [payment.save()] for an instance loaded from the table: [pre_save],
    the row (an UPDATE, or an INSERT when no row has that key) and
    [post_save]. *)
Definition Payment_save (instance : Payment.t) (w : World) : World :=
  let attr := payment_pre_save (Some (Payment.id instance)) None w in
  let created := bool_decide (payments w !! Payment.id instance = None) in
  let w1 :=
    logged (if created then INSERT T_payment else UPDATE T_payment)
           (put_payment instance w) in
  payment_post_save instance created attr w1.

(** [PinnedPost.objects.create(user=..., post=...)]: the one-to-one
    column rejects a second row for the user. *)
Definition PinnedPost_create (user : Z) (post : Post.t) (w : World)
  : option PinnedPost.t * World :=
  match pinned_posts w !! user with
  | Some _ => (None, w)                             (* IntegrityError *)
  | None =>
      let instance := PinnedPost.mk user post (clock w) in
      (Some instance,
       pinned_post_post_save instance true
         (logged (INSERT T_pinned_post) (put_pinned_post instance w)))
  end.

End Receivers.

(** ** [payment/views.py] and [payment/tasks.py] *)

(** Modelled from the spec: [RefundCreateSerializer.save] of
    [payment/serializers.py]; §4.4: a Refund is created with status
    pending for the payment, by the admin.  The key is the next one of
    the auto-incremented column. *)
Definition next_id {A} (m : gmap Z A) : Z :=
  1 + map_fold (λ k _ acc, Z.max k acc) 0 m.

Definition Refund_create (payment : Payment.t) (created_by amount : Z)
           (reason : string) (w : World) : Refund.t * World :=
  let refund :=
    Refund.mk (next_id (refunds w)) (Payment.id payment) amount reason
              RefundStatus.pending created_by in
  (refund, logged (INSERT T_refund) (put_refund refund w)).

(** [refund.save()]; no receiver is connected to [Refund]. *)
Definition Refund_save (refund : Refund.t) (w : World) : World :=
  logged (if bool_decide (refunds w !! Refund.id refund = None)
          then INSERT T_refund else UPDATE T_refund)
         (put_refund refund w).

(** [get_object_or_404(Payment, id=payment_id, user=request.user)];
    [None] is the 404 answer. *)
Definition get_payment_or_404 (payment_id : Z) (user : option Z) (w : World)
  : option Payment.t :=
  p ← payments w !! payment_id;
  if bool_decide (Payment.id p = payment_id) then
    match user with
    | Some u => if bool_decide (Payment.user p = u) then Some p else None
    | None => Some p
    end
  else None.

Definition hours_24 : Z := 24 * 3600.

(** The query set of [retry_failed_webhook_events]:
    [filter(status='failed', created_at__gte=retry_cutoff)[:50]]. *)
Definition failed_events (w : World) : list WebhookEvent.t :=
  let retry_cutoff := clock w - hours_24 in
  take 50
    (filter (λ e, WebhookEvent.status e = WebhookStatus.failed
                  ∧ retry_cutoff ≤ WebhookEvent.created_at e)
            (snd <$> map_to_list (webhook_events w))).

Section Views.
Context {ST : Stripe} {PS : PaymentService} {WS : WebhookService}
        {MD : Models}.

(** [payment_status].  The body is built from the instance after the
    service call, which works on that instance; it is read back from
    the table here. *)
Definition payment_status (user payment_id : Z) (w : World)
  : Response * World :=
  match get_payment_or_404 payment_id (Some user) w with
  | None => (not_found, w)
  | Some payment =>
      let w1 :=
        if truthy (Payment.stripe_session_id payment)
           && pending_or_processing (Some (Payment.status payment))
        then
          let session_id := default EmptyString (Payment.stripe_session_id payment) in
          let w' := called (Call_retrieve_session session_id) w in
          match retrieve_session session_id with
          | Some session_info =>
              if bool_decide (session_status session_info = "complete"%string)
              then process_successful_payment payment w'
              else if bool_decide (session_status session_info = "failed"%string)
              then process_failed_payment payment (Some "Session failed"%string) w'
              else w'
          | None => w'
          end
        else w in
      let after := default payment (payments w1 !! payment_id) in
      let subscription_activated :=
        if is_successful after then
          match payment_subscription after w1 with
          | Some subscription => is_active subscription w1
          | None => false
          end
        else false in
      (mkResponse 200
         (B_status (Payment.id after) (Payment.status after)
                   subscription_activated),
       w1)
  end.

(** [cancel_payment] *)
Definition cancel_payment (user payment_id : Z) (w : World)
  : Response * World :=
  match get_payment_or_404 payment_id (Some user) w with
  | None => (not_found, w)
  | Some payment =>
      if negb (is_pending payment) then
        (mkResponse 400 (B_error "Can only cancel pending payments"), w)
      else
        let payment := Payment.with_status PaymentStatus.cancelled payment in
        let w1 := Payment_save payment w in
        let w2 :=
          match payment_subscription payment w1 with
          | Some subscription => cancel subscription w1
          | None => w1
          end in
        (mkResponse 200 (B_message "Payment cancelled successfully"), w2)
  end.

(** [create_refund]: [amount] and [reason] are [request.data]. *)
Definition create_refund (admin payment_id amount : Z) (reason : string)
           (w : World) : Response * World :=
  match get_payment_or_404 payment_id None w with
  | None => (not_found, w)
  | Some payment =>
      if negb (can_be_refunded payment w) then
        (mkResponse 400 (B_error "This payment cannot be refunded"), w)
      else if refund_is_valid payment_id amount reason w then
        let '(refund, w1) := Refund_create payment admin amount reason w in
        let w2 :=
          called (Call_refund (Payment.id payment) (Refund.amount refund)
                              (Refund.reason refund)) w1 in
        let success :=
          refund_payment payment (Refund.amount refund) (Refund.reason refund) in
        if success then
          let w3 := process_refund refund w2 in
          let w4 :=
            if bool_decide (Refund.amount refund = Payment.amount payment) then
              match payment_subscription payment w3 with
              | Some subscription => cancel_subscription subscription w3
              | None => w3
              end
            else w3 in
          (mkResponse 201 (B_refund (refunds w4 !! Refund.id refund)), w4)
        else
          let w3 := Refund_save (Refund.with_status RefundStatus.failed refund) w2 in
          (mkResponse 400 (B_error "Failed to process refund"), w3)
      else (mkResponse 400 (B_errors "invalid refund"), w)
  end.

(** [stripe_webhook]: [payload] is the request body, [sig_header] the
    [Stripe-Signature] header. *)
Definition stripe_webhook (payload : string) (sig_header : option string)
           (w : World) : Response * World :=
  match construct_event payload sig_header with
  | ValueError => (mkResponse 400 B_empty, w)
  | SignatureVerificationError => (mkResponse 400 B_empty, w)
  | Event event =>
      let '(success, w') := process_stripe_webhook event w in
      if success then (mkResponse 200 B_empty, w')
      else (mkResponse 400 B_empty, w')
  end.



End Views.

(** ** [subscribe/serializers.py]

    The framework finds the validation hooks of a serializer class by
    name: [validate_<field>] for each field, then [validate], which the
    base class defines as returning its argument.  A class body is the
    list of the hooks it defines, under the names it gives them. *)

Section Framework.
Context {D A : Type}.

(** A hook receives [self.context["request"].user], the database and
    the value; it raises a [ValidationError] or returns the value. *)
Definition Hook : Type := Z → World → A → string + A.
Definition ClassBody : Type := list (string * Hook).

Fixpoint getattr (cls : ClassBody) (name : string) : option Hook :=
  match cls with
  | [] => None
  | (n, m) :: rest => if bool_decide (n = name) then Some m else getattr rest name
  end.

(** [rest_framework.serializers.Serializer.validate] *)
Definition Serializer_validate : Hook := λ _ _ attrs, inr attrs.

(** [run_validation] of a serializer with one writable field:
    the field's own conversion, the field hook, the object hook. *)
Definition run_validation (cls : ClassBody) (field_name : string)
           (to_internal_value : World → D → string + A)
           (user : Z) (w : World) (data : D) : string + A :=
  match to_internal_value w data with
  | inl e => inl e
  | inr value =>
      let checked :=
        match getattr cls ("validate_" +:+ field_name) with
        | Some validate_method => validate_method user w value
        | None => inr value
        end in
      match checked with
      | inl e => inl e
      | inr value =>
          default Serializer_validate (getattr cls "validate") user w value
      end
  end.
End Framework.

Section Serializers.
Context {PS : PaymentService} {MD : Models}.

(** [PinnedPostSerializer.validate_post] *)
Definition PinnedPostSerializer_validate_post : @Hook Post.t :=
  λ user _ value,
    if negb (bool_decide (Post.author value = user)) then
      inl "You can ony pinned your posts."%string
    else if negb (bool_decide (Post.status value = "published"%string)) then
      inl "Only published posts can be pinned."%string
    else inr value.

(** [PinnedPostSerializer.validete] and [PinPostSerializer.validate]
    have the same body. *)
Definition active_subscription_required {A} : @Hook A :=
  λ user w attrs,
    match user_subscription user w with
    | None => inl "Active subscription required to pin posts."%string
    | Some subscription =>
        if negb (is_active subscription w) then
          inl "Active subscription required to pin posts."%string
        else inr attrs
    end.

Definition PinnedPostSerializer : @ClassBody Post.t :=
  [ ("validate_post"%string, PinnedPostSerializer_validate_post);
    ("validete"%string, active_subscription_required) ].

(** The [post] field of the model serializer is a primary-key related
    field over all posts. *)
Definition related_post (w : World) (pk : Z) : string + Post.t :=
  match posts w !! pk with
  | Some post => inr post
  | None => inl "Invalid pk - object does not exist."%string
  end.

Definition PinnedPostSerializer_is_valid (user : Z) (w : World) (data : Z)
  : string + Post.t :=
  run_validation PinnedPostSerializer "post" related_post user w data.

(** [serializer.save()] after [is_valid()]: [create] sets the user and
    inserts the row. *)
Definition PinnedPostSerializer_save (user : Z) (data : Z) (w : World)
  : (string + option PinnedPost.t) * World :=
  match PinnedPostSerializer_is_valid user w data with
  | inl e => (inl e, w)
  | inr post =>
      let '(instance, w') := PinnedPost_create user post w in
      (inr instance, w')
  end.

(** [PinPostSerializer.validate_post_id] *)
Definition PinPostSerializer_validate_post_id : @Hook Z :=
  λ user w value,
    match posts w !! value with
    | Some post =>
        if negb (bool_decide (Post.status post = "published"%string)) then
          inl "Post not found or not published."%string
        else if negb (bool_decide (Post.author post = user)) then
          inl "You can only pin your own posts."%string
        else inr value
    | None => inl "Post not found or not published."%string
    end.

Definition PinPostSerializer : @ClassBody Z :=
  [ ("validate_post_id"%string, PinPostSerializer_validate_post_id);
    ("validate"%string, active_subscription_required) ].

Definition PinPostSerializer_is_valid (user : Z) (w : World) (data : Z)
  : string + Z :=
  run_validation PinPostSerializer "post_id" (λ _ x, inr x) user w data.

End Serializers.

(** ** The service and model layers, from the specification *)

Definition day : Z := 24 * 3600.

(** Modelled from the spec: [PaymentService.process_successful_payment]
    of [payment/services.py], which is not among the sources.  §4.1: the
    payment becomes succeeded, the linked subscription becomes active
    from now until now plus the plan's duration, one "activated" history
    row is written; §4.2: from a status other than pending or processing
    the call does nothing. *)
Definition spec_process_successful_payment (payment : Payment.t) (w : World)
  : World :=
  if pending_or_processing (Some (Payment.status payment)) then
    let w1 :=
      logged (UPDATE T_payment)
             (put_payment (Payment.with_status PaymentStatus.succeeded payment) w) in
    match payment_subscription payment w1 with
    | Some s =>
        let s' :=
          Subscription.mk (Subscription.id s) (Subscription.user s)
            (Subscription.plan_name s) (Subscription.duration_days s)
            SubscriptionStatus.active (clock w1)
            (clock w1 + Subscription.duration_days s * day)
            (Subscription.auto_renew s) in
        SubscriptionHistory_create
          (SubscriptionHistory.mk (Subscription.id s) "activated"
                                  "Subscription activated" None)
          (logged (UPDATE T_subscription) (put_subscription s' w1))
    | None => w1
    end
  else w.

(** Modelled from the spec: [PaymentService.process_failed_payment] of
    [payment/services.py].  §4.1: the payment becomes failed and the
    linked subscription, if still pending, cancelled; §4.2: from a status
    other than pending or processing the call does nothing. *)
Definition spec_process_failed_payment (payment : Payment.t)
           (reason : option string) (w : World) : World :=
  if pending_or_processing (Some (Payment.status payment)) then
    let w1 :=
      logged (UPDATE T_payment)
             (put_payment (Payment.with_status PaymentStatus.failed payment) w) in
    match payment_subscription payment w1 with
    | Some s =>
        if bool_decide (Subscription.status s = SubscriptionStatus.pending) then
          logged (UPDATE T_subscription)
                 (put_subscription
                    (Subscription.with_status SubscriptionStatus.cancelled s) w1)
        else w1
    | None => w1
    end
  else w.

(** Modelled from the spec: [PaymentService.cancel_subscription] of
    [payment/services.py].  §4.1: the subscription becomes cancelled, any
    pinned post of its user is deleted, a history row is written. *)
Definition spec_cancel_subscription (subscription : Subscription.t) (w : World)
  : World :=
  let w1 :=
    logged (UPDATE T_subscription)
           (put_subscription
              (Subscription.with_status SubscriptionStatus.cancelled subscription)
              w) in
  let w2 :=
    match user_pinned_post (Subscription.user subscription) w1 with
    | Some pinned_post => PinnedPost_delete pinned_post w1
    | None => w1
    end in
  SubscriptionHistory_create
    (SubscriptionHistory.mk (Subscription.id subscription) "cancelled"
                            "Subscription cancelled" None)
    w2.

#[global] Instance spec_payment_service : PaymentService := {
  process_successful_payment := spec_process_successful_payment;
  process_failed_payment := spec_process_failed_payment;
  cancel_subscription := spec_cancel_subscription
}.

(** Modelled from the spec: the payment a checkout session belongs to
    (§4.3 step 3, "resolve the local Payment by provider_session_id"). *)
Definition payment_by_session (session_id : string) (w : World)
  : option Payment.t :=
  snd <$> (snd <$> list_find
                     (λ kv, Payment.stripe_session_id kv.2 = Some session_id)
                     (map_to_list (payments w))).

(** Modelled from the spec: the event recorded under an
    [external_event_id], the unique key of §3 (§4.3 step 1). *)
Definition get_webhook_event (external_event_id : string) (w : World)
  : option WebhookEvent.t :=
  e ← webhook_events w !! external_event_id;
  if bool_decide (WebhookEvent.external_event_id e = external_event_id)
  then Some e else None.

Definition set_event_status (s : WebhookStatus.t) (e : WebhookEvent.t)
           (w : World) : World :=
  logged (UPDATE T_webhook_event)
         (put_webhook_event (WebhookEvent.with_status s e) w).

(** Modelled from the spec: the handlers of §4.3 step 3; [None] is a
    handler that raised (no payment for the session). *)
Definition spec_dispatch (event : StripeEvent.t) (w : World) : option World :=
  match StripeEvent.type event with
  | StripeEvent.checkout_session_completed =>
      payment ← payment_by_session (StripeEvent.session event) w;
      Some (spec_process_successful_payment payment w)
  | StripeEvent.payment_failed =>
      payment ← payment_by_session (StripeEvent.session event) w;
      Some (spec_process_failed_payment payment
              (StripeEvent.failure_reason event) w)
  | StripeEvent.other _ => Some w
  end.

(** Modelled from the spec: [WebhookService.process_stripe_webhook] of
    [payment/services.py], steps 1 to 5 of §4.3. *)
Definition spec_process_stripe_webhook (event : StripeEvent.t) (w : World)
  : bool * World :=
  let found := get_webhook_event (StripeEvent.id event) w in
  if bool_decide (WebhookEvent.status <$> found = Some WebhookStatus.processed)
  then (true, w)
  else
    let '(record, w1) :=
      match found with
      | Some record => (record, w)
      | None =>
          let record :=
            WebhookEvent.mk (StripeEvent.id event) event
                            WebhookStatus.pending (clock w) in
          (record, logged (INSERT T_webhook_event) (put_webhook_event record w))
      end in
    match StripeEvent.type event with
    | StripeEvent.other _ => (true, set_event_status WebhookStatus.ignored record w1)
    | _ =>
        match spec_dispatch event w1 with
        | Some w2 => (true, set_event_status WebhookStatus.processed record w2)
        | None => (false, set_event_status WebhookStatus.failed record w1)
        end
    end.

#[global] Instance spec_webhook_service : WebhookService := {
  process_stripe_webhook := spec_process_stripe_webhook
}.

(** Sum of the succeeded refunds of a payment. *)
Definition refunded_total (payment_id : Z) (w : World) : Z :=
  map_fold
    (λ _ r acc,
       if bool_decide (Refund.payment r = payment_id
                       ∧ Refund.status r = RefundStatus.succeeded)
       then Refund.amount r + acc else acc)
    0 (refunds w).

(** Modelled from the spec: [Payment.can_be_refunded] of
    [payment/models.py]; §4.4: the payment is succeeded and not already
    fully refunded. *)
Definition spec_can_be_refunded (payment : Payment.t) (w : World) : bool :=
  bool_decide (Payment.status payment = PaymentStatus.succeeded)
  && bool_decide (refunded_total (Payment.id payment) w < Payment.amount payment).

(** Modelled from the spec: the validation of [RefundCreateSerializer]
    of [payment/serializers.py]; §4.4: the amount is at most the
    remaining refundable amount. *)
Definition spec_refund_is_valid (payment_id amount : Z) (reason : string)
           (w : World) : bool :=
  match payments w !! payment_id with
  | Some payment =>
      bool_decide (amount ≤ Payment.amount payment - refunded_total payment_id w)
  | None => false
  end.

(** Modelled from the spec: [Refund.process_refund] of
    [payment/models.py]; §4.4: the refund becomes succeeded. *)
Definition spec_process_refund (refund : Refund.t) (w : World) : World :=
  Refund_save (Refund.with_status RefundStatus.succeeded refund) w.

(** Modelled from the spec: [WebhookEvent.mark_as_processed] of
    [payment/models.py]; §4.3 step 4: the event is marked processed. *)
Definition spec_mark_as_processed (event : WebhookEvent.t) (w : World) : World :=
  set_event_status WebhookStatus.processed event w.

(** Modelled from the spec: [Subscription.is_active] of
    [subscribe/models.py]; §3: the status of the subscription is active. *)
Definition spec_is_active (subscription : Subscription.t) (w : World) : bool :=
  bool_decide (Subscription.status subscription = SubscriptionStatus.active).

(** Modelled from the spec: [Subscription.cancel] of
    [subscribe/models.py]; §3: the subscription becomes cancelled. *)
Definition spec_cancel (subscription : Subscription.t) (w : World) : World :=
  logged (UPDATE T_subscription)
         (put_subscription
            (Subscription.with_status SubscriptionStatus.cancelled subscription) w).

#[global] Instance spec_models : Models := {
  can_be_refunded := spec_can_be_refunded;
  refund_is_valid := spec_refund_is_valid;
  process_refund := spec_process_refund;
  mark_as_processed := spec_mark_as_processed;
  is_active := spec_is_active;
  cancel := spec_cancel
}.

(** The payment and subscription state of the ledger: every table but
    the webhook events, without the logs. *)
Definition ledger_state (w : World) :=
  (payments w, subscriptions w, pinned_posts w, refunds w, history w).

(** ** Sample data *)

Module Sample.

Definition payment1 : Payment.t :=
  Payment.mk 1 7 1000 "usd" PaymentStatus.pending (Some "cs_1"%string) (Some 3).

Definition subscription3 : Subscription.t :=
  Subscription.mk 3 7 "Pro" 30 SubscriptionStatus.pending 0 0 false.

Definition post5 : Post.t := Post.mk 5 7 "published" "Hello".
Definition post6 : Post.t := Post.mk 6 8 "published" "World".

(** A checkout in progress: user 7 has a pending payment and a pending
    subscription; user 8 has a post and no subscription. *)
Definition checkout : World :=
  mkWorld {[ 1 := payment1 ]} ∅ ∅ {[ 3 := subscription3 ]} ∅
          {[ 5 := post5; 6 := post6 ]} [] [] [] 100000.

(** The same ledger after the payment went through and user 7 pinned a
    post. *)
Definition paid : World :=
  mkWorld
    {[ 1 := Payment.with_status PaymentStatus.succeeded payment1 ]} ∅ ∅
    {[ 3 := Subscription.mk 3 7 "Pro" 30 SubscriptionStatus.active
                            90000 2682000 false ]}
    {[ 7 := PinnedPost.mk 7 post5 95000 ]}
    {[ 5 := post5; 6 := post6 ]} [] [] [] 100000.

Definition completed : StripeEvent.t :=
  StripeEvent.mk "evt_1" StripeEvent.checkout_session_completed "cs_1" None.

(** A provider that verifies every request as [completed], reports the
    session as complete and accepts refunds. *)
Definition accepting : Stripe := {|
  construct_event := λ _ _, Event completed;
  retrieve_session := λ _, Some (mkSessionInfo "complete");
  refund_payment := λ _ _ _, true
|}.

(** A provider that rejects signatures and refunds and knows no
    session. *)
Definition rejecting : Stripe := {|
  construct_event := λ _ _, SignatureVerificationError;
  retrieve_session := λ _, None;
  refund_payment := λ _ _ _, false
|}.

Definition failed_event (id : string) (created_at : Z) : WebhookEvent.t :=
  WebhookEvent.mk id (StripeEvent.mk id StripeEvent.checkout_session_completed
                                     "cs_1" None)
                  WebhookStatus.failed created_at.

(** One failed event of an hour ago, one of two days ago. *)
Definition with_failed_events : World :=
  mkWorld {[ 1 := payment1 ]} ∅
          {[ "evt_a"%string := failed_event "evt_a" 96400;
             "evt_b"%string := failed_event "evt_b" (-72800) ]}
          {[ 3 := subscription3 ]} ∅ ∅ [] [] [] 100000.

(** A pending payment whose subscription has already expired. *)
Definition lapsed : World :=
  mkWorld {[ 1 := payment1 ]} ∅ ∅
          {[ 3 := Subscription.with_status SubscriptionStatus.expired
                    subscription3 ]}
          ∅ ∅ [] [] [] 100000.

(** No event is failed: one is processed, one is ignored. *)
Definition settled : World :=
  mkWorld ∅ ∅
          {[ "evt_a"%string :=
               WebhookEvent.with_status WebhookStatus.processed
                 (failed_event "evt_a" 96400);
             "evt_b"%string :=
               WebhookEvent.with_status WebhookStatus.ignored
                 (failed_event "evt_b" 96500) ]}
          ∅ ∅ ∅ [] [] [] 100000.

End Sample.

(** ** The rest of [payment/views.py]: checkout and retry *)

Module SubscriptionPlan.
Record t := mk {
  id : Z;
  name : string;
  price : Z;
  duration_days : Z;
  is_active : bool
}.
End SubscriptionPlan.

(** [session_data], a dictionary; it is falsy when [None] or empty. *)
Definition SessionData : Type := list (string * string).

Definition session_created (session_data : option SessionData) : bool :=
  match session_data with
  | Some (_ :: _) => true
  | _ => false
  end.

(** [request.data] of the checkout view after [PaymentCreateSerializer]:
    the two URLs are optional. *)
Record CheckoutData := mkCheckoutData {
  subscription_plan_id : Z;
  success_url : option string;
  cancel_url : option string
}.

Inductive CheckoutBody :=
| C_session (session_data : SessionData)   (* StripeCheckoutSessionSerializer *)
| C_error (msg : string)
| C_errors                                  (* serializer.errors *)
| C_not_found.

Definition CheckoutResponse : Type := Z * CheckoutBody.

(** What the two views use of [payment/services.py] and
    [payment/serializers.py], which are not among the sources:
    the validation of [PaymentCreateSerializer];
    [PaymentService.create_subscription_payment], which returns the new
    payment and subscription or raises with a message;
    [StripeService.create_checkout_session], which returns the session
    or nothing (§6) and may have worked on the payment instance and on
    the database. *)
Class CheckoutServices := {
  checkout_is_valid : Z → CheckoutData → World → bool;
  create_subscription_payment :
    Z → SubscriptionPlan.t → World → string + (Payment.t * Subscription.t * World);
  StripeService_create_checkout_session :
    Payment.t → string → string → World → option SessionData * Payment.t * World
}.

(** [get_object_or_404(SubscriptionPlan, id=plan_id, is_active=True)] *)
Definition get_active_plan_or_404 (plans : gmap Z SubscriptionPlan.t)
           (plan_id : Z) : option SubscriptionPlan.t :=
  plan ← plans !! plan_id;
  if bool_decide (SubscriptionPlan.id plan = plan_id)
     && SubscriptionPlan.is_active plan
  then Some plan else None.

(** The two default URLs, built on [settings.FRONTEND_URL]. *)
Definition default_success_url (FRONTEND_URL : string) : string :=
  FRONTEND_URL +:+ "/payment/success?session_id={CHECKOUT_SESSION_ID}".

Definition default_cancel_url (FRONTEND_URL : string) : string :=
  FRONTEND_URL +:+ "/payment/cancel".

Section Checkout.
Context {PS : PaymentService} {CS : CheckoutServices}.
Variable FRONTEND_URL : string.
Variable plans : gmap Z SubscriptionPlan.t.

(** [create_checkout_session].  Everything after validation runs in
    [transaction.atomic()] inside [try ... except Exception]: an
    exception, [Http404] of the plan lookup included, rolls the database
    back and is answered 400; a [return] commits, also the one that
    answers 400 for a missing session. *)
Definition create_checkout_session (user : Z) (data : CheckoutData) (w : World)
  : CheckoutResponse * World :=
  if checkout_is_valid user data w then
    match get_active_plan_or_404 plans (subscription_plan_id data) with
    | None => ((400, C_error "No SubscriptionPlan matches the given query."), w)
    | Some plan =>
        match create_subscription_payment user plan w with
        | inl e => ((400, C_error e), w)
        | inr (payment, subscription, w1) =>
            let success_url :=
              default (default_success_url FRONTEND_URL) (success_url data) in
            let cancel_url :=
              default (default_cancel_url FRONTEND_URL) (cancel_url data) in
            let '(session_data, _, w2) :=
              StripeService_create_checkout_session payment success_url
                                                    cancel_url w1 in
            if session_created session_data then
              ((201, C_session (default [] session_data)), w2)
            else ((400, C_error "Failed to create checkout session"), w2)
        end
    end
  else ((400, C_errors), w).

(** [get_object_or_404(Payment, id=payment_id, user=request.user,
    status="failed")] *)
Definition get_failed_payment_or_404 (payment_id user : Z) (w : World)
  : option Payment.t :=
  p ← get_payment_or_404 payment_id (Some user) w;
  if bool_decide (Payment.status p = PaymentStatus.failed) then Some p else None.

(** [retry_payment]; the two URLs are [request.data.get(...)]. *)
Definition retry_payment (user payment_id : Z)
           (success_url cancel_url : option string) (w : World)
  : CheckoutResponse * World :=
  match get_failed_payment_or_404 payment_id user w with
  | None => ((404, C_not_found), w)
  | Some payment =>
      let success_url :=
        default (default_success_url FRONTEND_URL) success_url in
      let cancel_url := default (default_cancel_url FRONTEND_URL) cancel_url in
      let '(session_data, payment, w1) :=
        StripeService_create_checkout_session payment success_url cancel_url w in
      if session_created session_data then
        let payment := Payment.with_status PaymentStatus.processing payment in
        let w2 := Payment_save payment w1 in
        ((200, C_session (default [] session_data)), w2)
      else ((400, C_error "Failed to create checkout session"), w1)
  end.

End Checkout.

(** ** The rest of [payment/tasks.py]: the two clean-up tasks *)

Definition set_webhook_events (events : gmap string WebhookEvent.t) (w : World)
  : World :=
  mkWorld (payments w) (refunds w) events (subscriptions w) (pinned_posts w)
          (posts w) (history w) (writes w) (stripe_calls w) (clock w).

(** The filter of [cleanup_old_webhook_events]:
    [created_at__lt=cutoff_date, status__in=['processed', 'ignored']]. *)
Definition old_event (cutoff_date : Z) (e : WebhookEvent.t) : Prop :=
  WebhookEvent.created_at e < cutoff_date
  ∧ (WebhookEvent.status e = WebhookStatus.processed
     ∨ WebhookEvent.status e = WebhookStatus.ignored).

#[global] Instance old_event_dec cutoff_date e : Decision (old_event cutoff_date e).
Proof. unfold old_event. apply _. Defined.

(** [cleanup_old_webhook_events]; the integer is
    [deleted_webhook_events], one logged DELETE per row. *)
Definition cleanup_old_webhook_events (w : World) : Z * World :=
  let cutoff_date := clock w - 30 * day in
  let old_events :=
    filter (λ kv, old_event cutoff_date kv.2) (webhook_events w) in
  let deleted_events := size old_events in
  (Z.of_nat deleted_events,
   Nat.iter deleted_events (logged (DELETE T_webhook_event))
     (set_webhook_events
        (filter (λ kv, ¬ old_event cutoff_date kv.2) (webhook_events w)) w)).

(** The filter of [cleanup_old_payments]:
    [created_at__lt=cutoff_date, status__in=['failed', 'cancelled']].
    The [created_at] column of a payment is not part of the row record
    and is a parameter. *)
Definition old_payment (created_at : Payment.t → Z) (cutoff_date : Z)
           (p : Payment.t) : Prop :=
  created_at p < cutoff_date
  ∧ (Payment.status p = PaymentStatus.failed
     ∨ Payment.status p = PaymentStatus.cancelled).

#[global] Instance old_payment_dec created_at cutoff_date p :
  Decision (old_payment created_at cutoff_date p).
Proof. unfold old_payment. apply _. Defined.

(** [cleanup_old_payments]: the payments table the task leaves.  Which
    rows of other tables go with the deleted payments, and so the number
    the task reports, follows the [on_delete] rules of
    [payment/models.py], which is not among the sources. *)
Definition cleanup_old_payments (created_at : Payment.t → Z) (w : World)
  : gmap Z Payment.t :=
  let cutoff_date := clock w - 90 * day in
  filter (λ kv, ¬ old_payment created_at cutoff_date kv.2) (payments w).

(** ** The rest of [subscribe/signals.py] *)

(** The status as the string stored in the column. *)
Definition status_name (s : SubscriptionStatus.t) : string :=
  match s with
  | SubscriptionStatus.pending => "pending"
  | SubscriptionStatus.active => "active"
  | SubscriptionStatus.cancelled => "cancelled"
  | SubscriptionStatus.expired => "expired"
  end.

(** [subscription_post_save].  [attr] is [instance._previous_status]:
    [None] when the attribute is absent, [Some None] when it is Python's
    [None]. *)
Definition subscription_post_save (instance : Subscription.t) (created : bool)
           (attr : option (option SubscriptionStatus.t)) (w : World) : World :=
  if created then
    SubscriptionHistory_create
      (SubscriptionHistory.mk (Subscription.id instance) "created"
         ("Subscription created for plan " +:+ Subscription.plan_name instance)
         None)
      w
  else
    match attr with
    | Some _previous_status =>
        if bool_decide (_previous_status ≠ Some (Subscription.status instance))
        then
          SubscriptionHistory_create
            (SubscriptionHistory.mk (Subscription.id instance)
               (status_name (Subscription.status instance))
               ("Subscription status changed from "
                  +:+ from_option status_name "None" _previous_status
                  +:+ " to " +:+ status_name (Subscription.status instance))
               None)
            w
        else w
    | None => w
    end.

(** ** The rest of [subscribe/serializers.py] *)

(** The dictionary [UserSubscriptionStatusSerializer.to_representation]
    returns; the two nested serializers are represented by the rows they
    render. *)
Record SubscriptionStatusData := mkSubscriptionStatusData {
  has_subscription : bool;
  data_is_active : bool;
  data_subscription : option Subscription.t;
  data_pinned_post : option PinnedPost.t;
  can_pin_posts : bool
}.

Section MoreSerializers.
Context {MD : Models}.

(** [UserSubscriptionStatusSerializer.to_representation] *)
Definition UserSubscriptionStatusSerializer_to_representation (user : Z)
           (w : World) : SubscriptionStatusData :=
  let has_subscription := bool_decide (is_Some (user_subscription user w)) in
  let subscription := user_subscription user w in
  let is_active :=
    match subscription with
    | Some s => is_active s w
    | None => false
    end in
  let pinned_post := if is_active then user_pinned_post user w else None in
  mkSubscriptionStatusData has_subscription is_active subscription pinned_post
                           is_active.

(** [UnpinPostSerializer.validate] *)
Definition UnpinPostSerializer_validate : @Hook unit :=
  λ user w attrs,
    match user_pinned_post user w with
    | None => inl "No pinned post found."%string
    | Some _ => inr attrs
    end.

Definition UnpinPostSerializer : @ClassBody unit :=
  [ ("validate"%string, UnpinPostSerializer_validate) ].

(** [is_valid()] of a serializer without fields: the object hook only. *)
Definition UnpinPostSerializer_is_valid (user : Z) (w : World) : string + unit :=
  default Serializer_validate (getattr UnpinPostSerializer "validate") user w ().

End MoreSerializers.

(** ** [main/serializers.py] *)

(** What [PostListSerializer.to_representation] does to the [content]
    entry of the data: texts longer than 200 characters are cut and
    marked.  A Python string is the sequence of its code points, which
    [len] counts and the slice cuts; 46 is the full stop. *)
Definition PostListSerializer_content (content : list N) : list N :=
  if bool_decide (200 < length content)%nat then
    take 200 content ++ [46; 46; 46]%N
  else content.

(** What a receiver of [subscribe/signals.py] may do to the ledger:
    append history rows, and nothing else to the tables below. *)
Definition bookkeeping_only (w w' : World) : Prop :=
  payments w' = payments w
  ∧ refunds w' = refunds w
  ∧ subscriptions w' = subscriptions w
  ∧ webhook_events w' = webhook_events w
  ∧ posts w' = posts w
  ∧ history w `prefix_of` history w'.

(** ** More sample data *)

Module Fixture.

Definition failed_payment : Payment.t :=
  Payment.mk 2 7 1000 "usd" PaymentStatus.failed (Some "cs_2"%string) (Some 3).

(** User 7 has one failed payment. *)
Definition after_failure : World :=
  mkWorld {[ 2 := failed_payment ]} ∅ ∅
          {[ 3 := Subscription.with_status SubscriptionStatus.cancelled
                    Sample.subscription3 ]}
          ∅ ∅ [] [] [] 100000.

Definition plans : gmap Z SubscriptionPlan.t :=
  {[ 1 := SubscriptionPlan.mk 1 "Pro" 1000 30 true;
     2 := SubscriptionPlan.mk 2 "Old" 500 30 false ]}.

(** A service layer that opens a pending payment and subscription, and a
    gateway that writes the session id on the payment but returns no
    session. *)
Definition failing_gateway : CheckoutServices := {|
  checkout_is_valid := λ _ _ _, true;
  create_subscription_payment := λ user plan w,
    let s := Subscription.mk 4 user (SubscriptionPlan.name plan)
               (SubscriptionPlan.duration_days plan)
               SubscriptionStatus.pending (clock w) (clock w) false in
    let p := Payment.mk 1 user (SubscriptionPlan.price plan) "usd"
               PaymentStatus.pending None (Some 4) in
    inr (p, s, logged (INSERT T_payment)
                 (put_payment p (logged (INSERT T_subscription)
                                        (put_subscription s w))));
  StripeService_create_checkout_session := λ p _ _ w, (None, p, w)
|}.

(** The same service layer with a gateway that opens a session. *)
Definition working_gateway : CheckoutServices := {|
  checkout_is_valid := checkout_is_valid (CheckoutServices := failing_gateway);
  create_subscription_payment :=
    create_subscription_payment (CheckoutServices := failing_gateway);
  StripeService_create_checkout_session := λ p _ _ w,
    let p' := Payment.mk (Payment.id p) (Payment.user p) (Payment.amount p)
                (Payment.currency p) (Payment.status p) (Some "cs_9"%string)
                (Payment.subscription p) in
    (Some [("id"%string, "cs_9"%string)], p',
     logged (UPDATE T_payment) (put_payment p' w))
|}.

(** Events of all four statuses, 40 days old, and a recent processed
    one; the clock is at day 50. *)
Definition old_and_new_events : World :=
  mkWorld ∅ ∅
    {[ "evt_a"%string :=
         WebhookEvent.mk "evt_a" Sample.completed WebhookStatus.processed 864000;
       "evt_b"%string :=
         WebhookEvent.mk "evt_b" Sample.completed WebhookStatus.ignored 864000;
       "evt_c"%string :=
         WebhookEvent.mk "evt_c" Sample.completed WebhookStatus.failed 864000;
       "evt_d"%string :=
         WebhookEvent.mk "evt_d" Sample.completed WebhookStatus.pending 864000;
       "evt_e"%string :=
         WebhookEvent.mk "evt_e" Sample.completed WebhookStatus.processed 4300000 ]}
    ∅ ∅ ∅ [] [] [] 4320000.



(** User 7 holds an active subscription and has pinned nothing. *)
Definition subscribed : World :=
  mkWorld
    {[ 1 := Payment.with_status PaymentStatus.succeeded Sample.payment1 ]} ∅ ∅
    {[ 3 := Subscription.mk 3 7 "Pro" 30 SubscriptionStatus.active
                            90000 2682000 false ]}
    ∅ {[ 5 := Sample.post5; 6 := Sample.post6 ]} [] [] [] 100000.

End Fixture.

(** * Properties *)

(** ** Receivers of [payment/signals.py] *)

Section ReceiverFacts.
Context {PS : PaymentService}.

Lemma payment_pre_save_stored (instance cur : Payment.t) (w : World) :
  Payment.id instance ≠ 0 →
  payments w !! Payment.id instance = Some cur →
  payment_pre_save (Some (Payment.id instance)) None w
  = Some (Some (Payment.status cur)).
Proof.
  intros Hpk Hcur. unfold payment_pre_save.
  rewrite bool_decide_eq_false_2 by done. by rewrite Hcur.
Qed.

Lemma payment_post_save_other_status (instance : Payment.t) (created : bool)
      (attr : option (option PaymentStatus.t)) (w : World) :
  Payment.status instance ≠ PaymentStatus.succeeded →
  Payment.status instance ≠ PaymentStatus.failed →
  payment_post_save instance created attr w = w.
Proof.
  intros Hs Hf. unfold payment_post_save.
  destruct created, attr as [prev|]; simpl; try done.
  rewrite !bool_decide_eq_false_2 by done.
  by rewrite !andb_false_r.
Qed.

(** Saving a row whose new status is neither succeeded nor failed is
    the row write alone. *)
Lemma Payment_save_other_status (instance cur : Payment.t) (w : World) :
  payments w !! Payment.id instance = Some cur →
  Payment.status instance ≠ PaymentStatus.succeeded →
  Payment.status instance ≠ PaymentStatus.failed →
  Payment_save instance w = logged (UPDATE T_payment) (put_payment instance w).
Proof.
  intros Hcur Hs Hf. unfold Payment_save.
  rewrite payment_post_save_other_status by done.
  by rewrite bool_decide_eq_false_2 by (by rewrite Hcur).
Qed.

(** C2, as amended.  Saving an existing payment stores the new status
    whatever status was stored before.  The receivers read the stored
    status and apply the transition operation,
    [process_successful_payment] for a new status succeeded and
    [process_failed_payment] for a new status failed, only if the stored
    status was pending or processing; from any other stored status the
    save is the row write alone: no transition operation is applied and
    no path raises. *)
Theorem payment_transition_gate (instance cur : Payment.t) (w : World) :
  Payment.id instance ≠ 0 →
  payments w !! Payment.id instance = Some cur →
  let prev := payment_pre_save (Some (Payment.id instance)) None w in
  let saved := logged (UPDATE T_payment) (put_payment instance w) in
  prev = Some (Some (Payment.status cur))
  ∧ payments saved !! Payment.id instance = Some instance
  ∧ Payment_save instance w = payment_post_save instance false prev saved
  ∧ (pending_or_processing (Some (Payment.status cur)) = false →
     payment_post_save instance false prev saved = saved
     ∧ Payment_save instance w = saved)
  ∧ (pending_or_processing (Some (Payment.status cur)) = true →
     Payment.status instance = PaymentStatus.succeeded →
     payment_post_save instance false prev saved
     = process_successful_payment instance saved
     ∧ Payment_save instance w = process_successful_payment instance saved)
  ∧ (pending_or_processing (Some (Payment.status cur)) = true →
     Payment.status instance = PaymentStatus.failed →
     payment_post_save instance false prev saved
     = process_failed_payment instance None saved
     ∧ Payment_save instance w = process_failed_payment instance None saved).
Proof.
  intros Hpk Hcur prev saved.
  assert (Hprev : prev = Some (Some (Payment.status cur)))
    by (by apply payment_pre_save_stored).
  assert (Hsave : Payment_save instance w
                  = payment_post_save instance false prev saved).
  { unfold Payment_save. fold prev.
    by rewrite bool_decide_eq_false_2 by (by rewrite Hcur). }
  split; [done|]. split; [apply lookup_insert_eq|]. split; [done|].
  rewrite Hsave, Hprev. unfold payment_post_save. simpl.
  split; [|split].
  - by intros ->.
  - by intros -> ->.
  - by intros -> ->.
Qed.

End ReceiverFacts.

Lemma payment_transition_gate_witness :
  let instance := Payment.with_status PaymentStatus.failed Sample.payment1 in
  Payment_save instance Sample.paid
  = logged (UPDATE T_payment) (put_payment instance Sample.paid).
Proof.
  intros instance.
  destruct (payment_transition_gate (PS := spec_payment_service) instance
              (Payment.with_status PaymentStatus.succeeded Sample.payment1)
              Sample.paid) as (_ & _ & _ & Hrej & _).
  - done.
  - reflexivity.
  - apply Hrej. reflexivity.
Defined.

(** C2, as first stated, fails: a payment stored as succeeded and saved
    as failed is stored as failed.  The transition out of the terminal
    status is written, not rejected; only the transition operation is
    skipped, so the subscription stays active. *)
Lemma terminal_payment_transition_applied :
  let instance := Payment.with_status PaymentStatus.failed Sample.payment1 in
  Payment.status <$> payments Sample.paid !! 1 = Some PaymentStatus.succeeded
  ∧ pending_or_processing (Payment.status <$> payments Sample.paid !! 1)
    = false
  ∧ Payment.status <$> payments (Payment_save instance Sample.paid) !! 1
    = Some PaymentStatus.failed
  ∧ Subscription.status
      <$> subscriptions (Payment_save instance Sample.paid) !! 3
    = Some SubscriptionStatus.active
  ∧ Payment_save instance Sample.paid ≠ Sample.paid.
Proof.
  intros instance. repeat split; try reflexivity.
  intros Hsame. apply (f_equal writes) in Hsame. discriminate.
Qed.

(** ** Receivers of [subscribe/signals.py] *)

Lemma pinned_post_pre_delete_tables (instance : PinnedPost.t) (w : World) :
  pinned_posts (pinned_post_pre_delete instance w) = pinned_posts w
  ∧ subscriptions (pinned_post_pre_delete instance w) = subscriptions w
  ∧ payments (pinned_post_pre_delete instance w) = payments w
  ∧ refunds (pinned_post_pre_delete instance w) = refunds w.
Proof.
  unfold pinned_post_pre_delete.
  by destruct (user_subscription (PinnedPost.user instance) w).
Qed.

Lemma PinnedPost_delete_pinned_posts (instance : PinnedPost.t) (w : World) :
  pinned_posts (PinnedPost_delete instance w)
  = delete (PinnedPost.user instance) (pinned_posts w).
Proof.
  unfold PinnedPost_delete. simpl.
  by destruct (pinned_post_pre_delete_tables instance w) as (-> & _).
Qed.

Lemma PinnedPost_delete_subscriptions (instance : PinnedPost.t) (w : World) :
  subscriptions (PinnedPost_delete instance w) = subscriptions w.
Proof.
  unfold PinnedPost_delete. simpl.
  by destruct (pinned_post_pre_delete_tables instance w) as (_ & -> & _).
Qed.

Lemma user_pinned_post_Some (u : Z) (pinned_post : PinnedPost.t) (w : World) :
  user_pinned_post u w = Some pinned_post →
  pinned_posts w !! u = Some pinned_post ∧ PinnedPost.user pinned_post = u.
Proof.
  unfold user_pinned_post.
  destruct (pinned_posts w !! u) as [pp|]; simpl; [|done].
  case_bool_decide; naive_solver.
Qed.

(** Removing the pinned post a user has, if any, leaves the user
    without one. *)
Lemma unpinned_after_delete (u : Z) (w : World) :
  user_pinned_post u
    (match user_pinned_post u w with
     | Some pinned_post => PinnedPost_delete pinned_post w
     | None => w
     end) = None.
Proof.
  destruct (user_pinned_post u w) as [pp|] eqn:Hpp; [|done].
  apply user_pinned_post_Some in Hpp as [_ <-].
  unfold user_pinned_post.
  by rewrite PinnedPost_delete_pinned_posts, lookup_delete_eq.
Qed.

(** C10.  Deleting a subscription leaves its user without a pinned post:
    the pre-delete receiver removes the one the user has, if any, and
    does nothing when there is none. *)
Theorem subscription_delete_unpins (instance : Subscription.t) (w : World) :
  user_pinned_post (Subscription.user instance)
                   (subscription_pre_delete instance w) = None
  ∧ user_pinned_post (Subscription.user instance)
                     (Subscription_delete instance w) = None
  ∧ subscriptions (Subscription_delete instance w) !! Subscription.id instance
    = None
  ∧ (user_pinned_post (Subscription.user instance) w = None →
     subscription_pre_delete instance w = w).
Proof.
  split; [apply unpinned_after_delete|].
  split; [|split].
  - pose proof (unpinned_after_delete (Subscription.user instance) w) as Hu.
    unfold Subscription_delete, subscription_pre_delete, user_pinned_post in *.
    exact Hu.
  - unfold Subscription_delete. simpl. apply lookup_delete_eq.
  - unfold subscription_pre_delete. by intros ->.
Qed.

Lemma subscription_delete_unpins_witness :
  user_pinned_post 7 Sample.paid
  = Some (PinnedPost.mk 7 Sample.post5 95000)
  ∧ user_pinned_post 7
      (Subscription_delete
         (Subscription.mk 3 7 "Pro" 30 SubscriptionStatus.active
                          90000 2682000 false)
         Sample.paid) = None.
Proof.
  split; [reflexivity|].
  exact (proj1 (proj2 (subscription_delete_unpins
                         (Subscription.mk 3 7 "Pro" 30 SubscriptionStatus.active
                                          90000 2682000 false)
                         Sample.paid))).
Defined.

(** ** Views of [payment/views.py] *)

Section ViewFacts.
Context {ST : Stripe} {PS : PaymentService} {WS : WebhookService}
        {MD : Models}.

Lemma get_payment_or_404_Some (payment_id : Z) (user : option Z)
      (payment : Payment.t) (w : World) :
  get_payment_or_404 payment_id user w = Some payment →
  payments w !! payment_id = Some payment ∧ Payment.id payment = payment_id.
Proof.
  unfold get_payment_or_404. intros Hget.
  destruct (payments w !! payment_id) as [p|] eqn:Hp; simpl in Hget; [|done].
  case_bool_decide; [|done].
  destruct user as [u|]; [case_bool_decide|]; naive_solver.
Qed.

(** C5.  A request whose payload does not parse or whose signature does
    not verify is answered 400 and leaves the database as it was: no
    row of any table is written. *)
Theorem stripe_webhook_unverified (payload : string)
        (sig_header : option string) (w : World) :
  construct_event payload sig_header = ValueError
  ∨ construct_event payload sig_header = SignatureVerificationError →
  stripe_webhook payload sig_header w = (mkResponse 400 B_empty, w).
Proof. unfold stripe_webhook. by intros [-> | ->]. Qed.

(** C9.  Cancelling a payment that is not pending answers 400 and
    changes nothing.  Cancelling a pending one stores it as cancelled
    and then calls [cancel] on the linked subscription whenever there
    is one, whatever the status of that subscription. *)
Theorem cancel_payment_cases (user payment_id : Z) (payment : Payment.t)
        (w : World) :
  get_payment_or_404 payment_id (Some user) w = Some payment →
  let cancelled := Payment.with_status PaymentStatus.cancelled payment in
  let w1 := logged (UPDATE T_payment) (put_payment cancelled w) in
  (is_pending payment = false →
   cancel_payment user payment_id w
   = (mkResponse 400 (B_error "Can only cancel pending payments"), w))
  ∧ (is_pending payment = true →
     payments w1 !! payment_id = Some cancelled
     ∧ cancel_payment user payment_id w
       = (mkResponse 200 (B_message "Payment cancelled successfully"),
          match payment_subscription payment w with
          | Some subscription => cancel subscription w1
          | None => w1
          end)).
Proof.
  intros Hget cancelled w1.
  unfold cancel_payment. rewrite Hget.
  apply get_payment_or_404_Some in Hget as [Hrow Hid].
  split; [by intros ->|].
  intros ->. simpl. split.
  { subst w1. simpl. rewrite <- Hid. apply lookup_insert_eq. }
  rewrite (Payment_save_other_status cancelled payment);
    [done | by simpl; rewrite Hid | done | done].
Qed.

(** C4.  When the provider refuses the refund, the view answers 400,
    the refund row it created is stored as failed, and nothing else is
    written: the payments table, and with it the status, the amount
    and the subscription link of the payment, and the subscriptions
    table are the ones the request found. *)
Theorem create_refund_provider_failure (admin payment_id amount : Z)
        (reason : string) (payment : Payment.t) (w : World) :
  get_payment_or_404 payment_id None w = Some payment →
  can_be_refunded payment w = true →
  refund_is_valid payment_id amount reason w = true →
  refund_payment payment amount reason = false →
  let refund :=
    Refund.mk (next_id (refunds w)) payment_id amount reason
              RefundStatus.failed admin in
  let w' := (create_refund admin payment_id amount reason w).2 in
  (create_refund admin payment_id amount reason w).1
  = mkResponse 400 (B_error "Failed to process refund")
  ∧ refunds w' !! Refund.id refund = Some refund
  ∧ payments w' = payments w
  ∧ get_payment_or_404 payment_id None w' = Some payment
  ∧ payment_subscription payment w' = payment_subscription payment w
  ∧ subscriptions w' = subscriptions w
  ∧ pinned_posts w' = pinned_posts w
  ∧ history w' = history w
  ∧ writes w' = writes w ++ [INSERT T_refund; UPDATE T_refund].
Proof.
  intros Hget Hcan Hvalid Hfail refund w'.
  subst w'. unfold create_refund. rewrite Hget, Hcan, Hvalid. simpl.
  pose proof (get_payment_or_404_Some _ _ _ _ Hget) as [_ Hid].
  rewrite Hfail, Hid. simpl.
  unfold Refund_save. simpl.
  rewrite bool_decide_eq_false_2 by (by rewrite lookup_insert_eq).
  simpl. rewrite lookup_insert_eq, <- app_assoc.
  repeat split; done.
Qed.

End ViewFacts.

Lemma stripe_webhook_unverified_witness :
  stripe_webhook (ST := Sample.rejecting) "{}" (Some "t=1,v1=00"%string)
                 Sample.checkout
  = (mkResponse 400 B_empty, Sample.checkout).
Proof.
  apply (stripe_webhook_unverified (ST := Sample.rejecting)).
  right. reflexivity.
Defined.

Lemma cancel_payment_cases_witness :
  (cancel_payment 7 1 Sample.lapsed).1
  = mkResponse 200 (B_message "Payment cancelled successfully")
  ∧ Subscription.status <$> subscriptions (cancel_payment 7 1 Sample.lapsed).2 !! 3
    = Some SubscriptionStatus.cancelled.
Proof.
  destruct (cancel_payment_cases 7 1 Sample.payment1
              Sample.lapsed) as [_ Hpending]; [reflexivity|].
  destruct Hpending as [_ ->]; [reflexivity|].
  split; reflexivity.
Defined.

Lemma create_refund_provider_failure_witness :
  let w' := (create_refund (ST := Sample.rejecting) 99 1 1000 "requested"
                           Sample.paid).2 in
  Refund.status <$> refunds w' !! 1 = Some RefundStatus.failed
  ∧ payments w' = payments Sample.paid
  ∧ subscriptions w' = subscriptions Sample.paid.
Proof.
  destruct (create_refund_provider_failure (ST := Sample.rejecting) 99 1 1000
              "requested"
              (Payment.with_status PaymentStatus.succeeded Sample.payment1)
              Sample.paid)
    as (_ & Hrefund & Hpayments & _ & _ & Hsubscriptions & _);
    [reflexivity ..|].
  intros w'. split; [|done].
  exact (f_equal (fmap Refund.status) Hrefund).
Defined.

(** ** Refunds against the service layer of the specification *)

Lemma payment_subscription_Some (p : Payment.t) (w : World)
      (s : Subscription.t) :
  payment_subscription p w = Some s →
  Payment.subscription p = Some (Subscription.id s)
  ∧ subscriptions w !! Subscription.id s = Some s.
Proof.
  unfold payment_subscription.
  destruct (Payment.subscription p) as [sid|]; [|done]. simpl.
  destruct (subscriptions w !! sid) as [s0|] eqn:Hrow; [|done]. simpl.
  case_bool_decide as Hk; [|done].
  intros [= <-]. by rewrite Hk.
Qed.

Lemma payment_subscription_intro (p : Payment.t) (w : World)
      (s : Subscription.t) :
  Payment.subscription p = Some (Subscription.id s) →
  subscriptions w !! Subscription.id s = Some s →
  payment_subscription p w = Some s.
Proof.
  unfold payment_subscription. intros -> Hrow. simpl. rewrite Hrow. simpl.
  by rewrite bool_decide_eq_true_2.
Qed.

Lemma spec_cancel_subscription_effect (subscription : Subscription.t)
      (w : World) :
  let w' := spec_cancel_subscription subscription w in
  subscriptions w' !! Subscription.id subscription
  = Some (Subscription.with_status SubscriptionStatus.cancelled subscription)
  ∧ user_pinned_post (Subscription.user subscription) w' = None
  ∧ payments w' = payments w
  ∧ refunds w' = refunds w.
Proof.
  unfold spec_cancel_subscription.
  set (w1 := logged _ (put_subscription _ w)).
  pose proof (unpinned_after_delete (Subscription.user subscription) w1) as Hu.
  destruct (user_pinned_post (Subscription.user subscription) w1) as [pp|];
    simpl; (split; [|split; [exact Hu|]]).
  - destruct (pinned_post_pre_delete_tables pp w1) as (_ & -> & _).
    apply lookup_insert_eq.
  - by destruct (pinned_post_pre_delete_tables pp w1) as (_ & _ & -> & ->).
  - apply lookup_insert_eq.
  - done.
Qed.

Section RefundFacts.
Context {ST : Stripe}.

(** C3.  When the provider accepts the refund, the view answers 201 and
    the refund row it created is stored as succeeded.  If moreover the
    amount is the whole amount of the payment and the payment has a
    subscription, that subscription is stored as cancelled and its
    user is left without a pinned post. *)
Theorem create_refund_provider_success (admin payment_id amount : Z)
        (reason : string) (payment : Payment.t) (w : World) :
  get_payment_or_404 payment_id None w = Some payment →
  can_be_refunded payment w = true →
  refund_is_valid payment_id amount reason w = true →
  refund_payment payment amount reason = true →
  let refund :=
    Refund.mk (next_id (refunds w)) payment_id amount reason
              RefundStatus.succeeded admin in
  let w' := (create_refund admin payment_id amount reason w).2 in
  (create_refund admin payment_id amount reason w).1
  = mkResponse 201 (B_refund (Some refund))
  ∧ refunds w' !! Refund.id refund = Some refund
  ∧ ∀ subscription : Subscription.t,
      amount = Payment.amount payment →
      payment_subscription payment w = Some subscription →
      payment_subscription payment w'
      = Some (Subscription.with_status SubscriptionStatus.cancelled
                                       subscription)
      ∧ user_pinned_post (Subscription.user subscription) w' = None.
Proof.
  intros Hget Hcan Hvalid Hok refund w'.
  pose proof (get_payment_or_404_Some _ _ _ _ Hget) as [_ Hid].
  subst w'. unfold create_refund, Refund_create.
  rewrite Hget, Hcan, Hvalid.
  cbn [negb Refund.amount Refund.reason Refund.id].
  rewrite Hok, Hid.
  set (w3 := process_refund _ _).
  assert (Hstored : refunds w3 !! next_id (refunds w) = Some refund)
    by apply lookup_insert_eq.
  assert (Hlinked : payment_subscription payment w3
                    = payment_subscription payment w) by done.
  rewrite Hlinked. clearbody w3.
  destruct (decide (amount = Payment.amount payment)) as [Hfull|Hpart].
  - rewrite bool_decide_eq_true_2 by done.
    destruct (payment_subscription payment w) as [s|] eqn:Hs.
    + destruct (spec_cancel_subscription_effect s w3)
        as (Hsub & Hpin & _ & Hrefunds).
      cbn [fst snd cancel_subscription spec_payment_service].
      rewrite Hrefunds, Hstored. split; [done|]. split; [done|].
      intros s' _ [= <-]. split; [|done].
      apply payment_subscription_Some in Hs as [Hfk _].
      by apply payment_subscription_intro.
    + cbn [fst snd]. rewrite Hstored. by split; [|split].
  - rewrite bool_decide_eq_false_2 by done. cbn [fst snd].
    rewrite Hstored. by split; [|split].
Qed.

End RefundFacts.

Lemma create_refund_provider_success_witness :
  let w' := (create_refund (ST := Sample.accepting) 99 1 1000 "requested"
                           Sample.paid).2 in
  Refund.status <$> refunds w' !! 1 = Some RefundStatus.succeeded
  ∧ Subscription.status <$> subscriptions w' !! 3
    = Some SubscriptionStatus.cancelled
  ∧ user_pinned_post 7 w' = None.
Proof.
  destruct (create_refund_provider_success (ST := Sample.accepting) 99 1 1000
              "requested"
              (Payment.with_status PaymentStatus.succeeded Sample.payment1)
              Sample.paid)
    as (_ & Hrefund & Hfull); [reflexivity ..|].
  destruct (Hfull (Subscription.mk 3 7 "Pro" 30 SubscriptionStatus.active
                                   90000 2682000 false))
    as [Hsub Hpin]; [reflexivity ..|].
  intros w'. split; [exact (f_equal (fmap Refund.status) Hrefund)|].
  split; [reflexivity | exact Hpin].
Defined.

(** ** The webhook processor of the specification *)

Lemma get_webhook_event_Some (key : string) (record : WebhookEvent.t)
      (w : World) :
  get_webhook_event key w = Some record →
  webhook_events w !! key = Some record
  ∧ WebhookEvent.external_event_id record = key.
Proof.
  unfold get_webhook_event.
  destruct (webhook_events w !! key) as [e|]; simpl; [|done].
  case_bool_decide; naive_solver.
Qed.

Lemma set_event_status_lookup (s : WebhookStatus.t) (record : WebhookEvent.t)
      (w : World) :
  get_webhook_event (WebhookEvent.external_event_id record)
                    (set_event_status s record w)
  = Some (WebhookEvent.with_status s record).
Proof.
  unfold get_webhook_event, set_event_status. simpl.
  rewrite lookup_insert_eq. simpl. by rewrite bool_decide_eq_true_2.
Qed.

(** The first delivery of an event of a dispatched type whose payment is
    found succeeds and leaves the event marked processed. *)
Lemma first_application_marks_processed (event : StripeEvent.t)
      (payment : Payment.t) (w : World) :
  WebhookEvent.status <$> get_webhook_event (StripeEvent.id event) w
  ≠ Some WebhookStatus.processed →
  (∀ name, StripeEvent.type event ≠ StripeEvent.other name) →
  payment_by_session (StripeEvent.session event) w = Some payment →
  (spec_process_stripe_webhook event w).1 = true
  ∧ WebhookEvent.status
      <$> get_webhook_event (StripeEvent.id event)
                            (spec_process_stripe_webhook event w).2
    = Some WebhookStatus.processed.
Proof.
  intros Hnew Hkind Hpay. unfold spec_process_stripe_webhook.
  rewrite bool_decide_eq_false_2 by done.
  destruct (get_webhook_event (StripeEvent.id event) w) as [record|] eqn:Hrec.
  - apply get_webhook_event_Some in Hrec as [_ Hkey].
    unfold spec_dispatch.
    destruct (StripeEvent.type event) eqn:Hty; [| |by destruct (Hkind name)];
      rewrite Hpay; simpl; (split; [done|]);
      rewrite <- Hkey, set_event_status_lookup; done.
  - unfold spec_dispatch.
    destruct (StripeEvent.type event) eqn:Hty; [| |by destruct (Hkind name)];
      change (payment_by_session (StripeEvent.session event) (logged _ _))
        with (payment_by_session (StripeEvent.session event) w);
      rewrite Hpay; simpl; (split; [done|]);
      unfold get_webhook_event; simpl; rewrite lookup_insert_eq; simpl;
      by rewrite bool_decide_eq_true_2.
Qed.

Section WebhookFacts.
Context {ST : Stripe}.

(** C1.  A verified event whose [external_event_id] is already
    recorded as processed is answered 200 and the database, the log of
    written rows included, is left exactly as it was. *)
Theorem duplicate_webhook_noop (payload : string)
        (sig_header : option string) (event : StripeEvent.t)
        (record : WebhookEvent.t) (w : World) :
  construct_event payload sig_header = Event event →
  get_webhook_event (StripeEvent.id event) w = Some record →
  WebhookEvent.status record = WebhookStatus.processed →
  stripe_webhook payload sig_header w = (mkResponse 200 B_empty, w).
Proof.
  intros Hevent Hrec Hdone. unfold stripe_webhook. rewrite Hevent.
  cbn [process_stripe_webhook spec_webhook_service].
  unfold spec_process_stripe_webhook. rewrite Hrec. simpl.
  by rewrite Hdone.
Qed.

End WebhookFacts.

Lemma duplicate_webhook_noop_witness :
  let first := stripe_webhook (ST := Sample.accepting) "{}" None
                              Sample.checkout in
  first.1 = mkResponse 200 B_empty
  ∧ Subscription.status <$> subscriptions first.2 !! 3
    = Some SubscriptionStatus.active
  ∧ stripe_webhook (ST := Sample.accepting) "{}" None first.2
    = (mkResponse 200 B_empty, first.2).
Proof.
  intros first. split; [reflexivity|]. split; [reflexivity|].
  apply (duplicate_webhook_noop (ST := Sample.accepting) "{}" None
           Sample.completed
           (WebhookEvent.mk "evt_1" Sample.completed WebhookStatus.processed
                            100000));
    reflexivity.
Defined.

(** ** Reconciliation and the webhook path *)

(** The transition operations read and write the ledger state and the
    clock only. *)
Lemma spec_process_successful_payment_frame (payment : Payment.t)
      (w w' : World) :
  ledger_state w = ledger_state w' → clock w = clock w' →
  ledger_state (spec_process_successful_payment payment w)
  = ledger_state (spec_process_successful_payment payment w').
Proof.
  unfold ledger_state. intros [= Hp Hs Hpp Hr Hh] Hc.
  unfold spec_process_successful_payment, payment_subscription.
  destruct (pending_or_processing _); simpl; [|congruence].
  rewrite Hs, Hc.
  destruct (Payment.subscription payment ≫= _) as [s|]; simpl; congruence.
Qed.

Lemma spec_process_failed_payment_frame (payment : Payment.t)
      (reason reason' : option string) (w w' : World) :
  ledger_state w = ledger_state w' →
  ledger_state (spec_process_failed_payment payment reason w)
  = ledger_state (spec_process_failed_payment payment reason' w').
Proof.
  unfold ledger_state. intros [= Hp Hs Hpp Hr Hh].
  unfold spec_process_failed_payment, payment_subscription.
  destruct (pending_or_processing _); simpl; [|congruence].
  rewrite Hs.
  destruct (Payment.subscription payment ≫= _) as [s|]; simpl; [|congruence].
  case_bool_decide; simpl; congruence.
Qed.

Lemma spec_process_successful_payment_calls (payment : Payment.t)
      (w : World) :
  stripe_calls (spec_process_successful_payment payment w) = stripe_calls w.
Proof.
  unfold spec_process_successful_payment.
  destruct (pending_or_processing _); [|done].
  by destruct (payment_subscription _ _).
Qed.

Lemma spec_process_failed_payment_calls (payment : Payment.t)
      (reason : option string) (w : World) :
  stripe_calls (spec_process_failed_payment payment reason w) = stripe_calls w.
Proof.
  unfold spec_process_failed_payment.
  destruct (pending_or_processing _); [|done].
  destruct (payment_subscription _ _); [|done].
  by case_bool_decide.
Qed.

Section ReconciliationFacts.
Context {ST : Stripe}.

(** C7.  The status check asks the provider about a payment only when
    the payment has a session id and is pending or processing; in
    every other case it leaves the database as it was.  When it does
    ask and the session is reported complete (failed), the payment and
    subscription state it leaves is the one the webhook processor
    leaves on a not yet processed completed (failed) event for the same
    session. *)
Theorem reconciliation_replays_webhook (user payment_id : Z)
        (payment : Payment.t) (w : World) :
  get_payment_or_404 payment_id (Some user) w = Some payment →
  (truthy (Payment.stripe_session_id payment)
   && pending_or_processing (Some (Payment.status payment)) = false →
   (payment_status user payment_id w).2 = w)
  ∧ (∀ (session_id payload : string) (sig_header : option string)
       (info : SessionInfo) (event : StripeEvent.t),
       Payment.stripe_session_id payment = Some session_id →
       session_id ≠ EmptyString →
       pending_or_processing (Some (Payment.status payment)) = true →
       stripe_calls (payment_status user payment_id w).2
       = stripe_calls w ++ [Call_retrieve_session session_id]
       ∧ (retrieve_session session_id = Some info →
          construct_event payload sig_header = Event event →
          StripeEvent.session event = session_id →
          payment_by_session session_id w = Some payment →
          WebhookEvent.status <$> get_webhook_event (StripeEvent.id event) w
          ≠ Some WebhookStatus.processed →
          (session_status info = "complete"%string
           ∧ StripeEvent.type event = StripeEvent.checkout_session_completed)
          ∨ (session_status info = "failed"%string
             ∧ StripeEvent.type event = StripeEvent.payment_failed) →
          ledger_state (payment_status user payment_id w).2
          = ledger_state (stripe_webhook payload sig_header w).2)).
Proof.
  intros Hget. unfold payment_status. rewrite Hget. split.
  { by intros ->. }
  intros session_id payload sig_header info event Hsid Hne Hstale.
  rewrite Hsid, Hstale. cbn [truthy from_option id fst snd].
  rewrite bool_decide_eq_false_2 by done. cbn [negb andb].
  split.
  { destruct (retrieve_session session_id) as [i|]; [|done].
    repeat case_bool_decide; cbn [process_successful_payment
      process_failed_payment spec_payment_service];
      by rewrite ?spec_process_successful_payment_calls,
                 ?spec_process_failed_payment_calls. }
  intros Hinfo Hevent Hsession Hpay Hnew Hkind.
  rewrite Hinfo. unfold stripe_webhook. rewrite Hevent.
  cbn [process_stripe_webhook spec_webhook_service].
  unfold spec_process_stripe_webhook.
  rewrite (bool_decide_eq_false_2 _ Hnew).
  unfold spec_dispatch. rewrite Hsession.
  destruct Hkind as [[Hst Hty] | [Hst Hty]]; rewrite Hst, Hty; simpl.
  - destruct (get_webhook_event (StripeEvent.id event) w) as [record|].
    + rewrite Hpay. simpl.
      by apply spec_process_successful_payment_frame.
    + change (payment_by_session session_id (logged _ _))
        with (payment_by_session session_id w).
      rewrite Hpay. simpl.
      by apply spec_process_successful_payment_frame.
  - destruct (get_webhook_event (StripeEvent.id event) w) as [record|].
    + rewrite Hpay. simpl.
      by apply spec_process_failed_payment_frame.
    + change (payment_by_session session_id (logged _ _))
        with (payment_by_session session_id w).
      rewrite Hpay. simpl.
      by apply spec_process_failed_payment_frame.
Qed.

End ReconciliationFacts.

Lemma reconciliation_replays_webhook_witness :
  ledger_state (payment_status (ST := Sample.accepting) 7 1 Sample.checkout).2
  = ledger_state (stripe_webhook (ST := Sample.accepting) "{}" None
                                 Sample.checkout).2
  ∧ (payment_status (ST := Sample.accepting) 7 1 Sample.paid).2 = Sample.paid.
Proof.
  split.
  - destruct (reconciliation_replays_webhook (ST := Sample.accepting) 7 1
                Sample.payment1 Sample.checkout) as [_ Hstale];
      [reflexivity|].
    destruct (Hstale "cs_1"%string "{}"%string None (mkSessionInfo "complete")
                Sample.completed) as [_ Hsame];
      [reflexivity | done | reflexivity |].
    apply Hsame; [reflexivity .. | | ].
    + vm_compute. discriminate.
    + left. split; reflexivity.
  - destruct (reconciliation_replays_webhook (ST := Sample.accepting) 7 1
                (Payment.with_status PaymentStatus.succeeded Sample.payment1)
                Sample.paid) as [Hfresh _];
      [reflexivity|].
    apply Hfresh. reflexivity.
Defined.

(** ** The retry task of [payment/tasks.py] *)

Section TaskFacts.
Context {WS : WebhookService} {MD : Models}.








End TaskFacts.


(** ** Pinning a post: [subscribe/serializers.py] and the post-save guard *)

Section PinFacts.
Context {PS : PaymentService} {MD : Models}.

(** The framework never calls a method named [validete]: the object
    hook of [PinnedPostSerializer] is the inherited one, so the own
    published post of any user passes validation, subscription or not. *)
Lemma PinnedPostSerializer_accepts (user : Z) (w : World) (data : Z)
      (post : Post.t) :
  posts w !! data = Some post →
  Post.author post = user →
  Post.status post = "published"%string →
  PinnedPostSerializer_is_valid user w data = inr post.
Proof.
  intros Hpost Hauthor Hstatus.
  unfold PinnedPostSerializer_is_valid, run_validation, related_post.
  rewrite Hpost. simpl. unfold PinnedPostSerializer_validate_post.
  by rewrite !bool_decide_eq_true_2.
Qed.

(** [PinPostSerializer] spells the hook [validate] and rejects the same
    request. *)
Lemma PinPostSerializer_rejects (user : Z) (w : World) (data : Z) :
  (∀ subscription, user_subscription user w = Some subscription →
                   is_active subscription w = false) →
  ∃ e, PinPostSerializer_is_valid user w data = inl e.
Proof.
  intros Hinactive.
  unfold PinPostSerializer_is_valid, run_validation. simpl.
  destruct (PinPostSerializer_validate_post_id user w data) as [e|v];
    [by eexists|].
  unfold active_subscription_required.
  destruct (user_subscription user w) as [s|]; [|by eexists].
  rewrite (Hinactive s) by done. by eexists.
Qed.

(** The reactive half: a row created for a user without an active
    subscription is deleted by the post-save receiver. *)
Lemma pinned_post_post_save_guard (user : Z) (post : Post.t) (w : World) :
  user_pinned_post user w = None →
  (∀ subscription, user_subscription user w = Some subscription →
                   is_active subscription
                     (logged (INSERT T_pinned_post)
                        (put_pinned_post
                           (PinnedPost.mk user post (clock w)) w))
                   = false) →
  user_pinned_post user (PinnedPost_create user post w).2 = None.
Proof.
  intros Hnone Hinactive. unfold PinnedPost_create.
  destruct (pinned_posts w !! user) as [pp|] eqn:Hrow; [done|].
  cbn [snd]. unfold pinned_post_post_save.
  set (instance := PinnedPost.mk user post (clock w)).
  set (w1 := logged _ _).
  change (user_subscription (PinnedPost.user instance) w1)
    with (user_subscription user w).
  assert (Hgone : user_pinned_post user (PinnedPost_delete instance w1) = None).
  { unfold user_pinned_post.
    by rewrite PinnedPost_delete_pinned_posts, lookup_delete_eq. }
  destruct (user_subscription user w) as [s|] eqn:Hs; [|done].
  assert (Hin : is_active s w1 = false) by (by apply Hinactive).
  by rewrite Hin.
Qed.

End PinFacts.

(** C6.  A user without any subscription who submits an own published
    post through [PinnedPostSerializer] is not rejected: validation
    succeeds, a row is inserted, and only the post-save receiver removes
    it again; [PinPostSerializer] rejects the same request.  With a
    subscription that is not active the detour also leaves a history
    row. *)
Theorem pin_without_subscription_not_rejected :
  user_subscription 8 Sample.checkout = None
  ∧ PinnedPostSerializer_is_valid 8 Sample.checkout 6 = inr Sample.post6
  ∧ PinPostSerializer_is_valid 8 Sample.checkout 6
    = inl "Active subscription required to pin posts."%string
  ∧ (PinnedPostSerializer_save 8 6 Sample.checkout).1
    = inr (Some (PinnedPost.mk 8 Sample.post6 100000))
  ∧ writes (PinnedPostSerializer_save 8 6 Sample.checkout).2
    = [INSERT T_pinned_post; DELETE T_pinned_post]
  ∧ user_pinned_post 8 (PinnedPostSerializer_save 8 6 Sample.checkout).2 = None
  ∧ writes (PinnedPostSerializer_save 7 5 Sample.checkout).2
    = [INSERT T_pinned_post; INSERT T_subscription_history;
       DELETE T_pinned_post].
Proof. repeat split; reflexivity. Qed.

(** * Further properties *)

(** ** The payment views *)

Section MoreViewFacts.
Context {ST : Stripe} {PS : PaymentService} {WS : WebhookService}
        {MD : Models} {CS : CheckoutServices}.

Lemma get_payment_or_404_foreign (user payment_id : Z) (w : World) :
  (∀ p, payments w !! payment_id = Some p → Payment.user p ≠ user) →
  get_payment_or_404 payment_id (Some user) w = None.
Proof.
  intros Hforeign. unfold get_payment_or_404.
  destruct (payments w !! payment_id) as [p|] eqn:Hp; [|done]. simpl.
  case_bool_decide; [|done].
  by rewrite bool_decide_eq_false_2 by (by apply Hforeign).
Qed.

(** X1.  A payment id that is unknown, or that belongs to another user,
    is answered 404 by the status check, by cancellation and by retry,
    and none of them changes the database or reaches the provider. *)
Theorem foreign_payment_not_found (FRONTEND_URL : string)
        (user payment_id : Z) (success_url cancel_url : option string)
        (w : World) :
  (∀ p, payments w !! payment_id = Some p → Payment.user p ≠ user) →
  payment_status user payment_id w = (not_found, w)
  ∧ cancel_payment user payment_id w = (not_found, w)
  ∧ retry_payment FRONTEND_URL user payment_id success_url cancel_url w
    = ((404, C_not_found), w).
Proof.
  intros Hforeign.
  pose proof (get_payment_or_404_foreign _ _ _ Hforeign) as Hnone.
  unfold payment_status, cancel_payment, retry_payment,
    get_failed_payment_or_404.
  by rewrite Hnone.
Qed.

(** X2.  A refund request for an unknown payment, for a payment that
    cannot be refunded, or with data that do not validate is answered 404
    or 400 without creating a refund row and without calling the
    provider: the database is the one the request found. *)
Theorem create_refund_rejected_unchanged (admin payment_id amount : Z)
        (reason : string) (w : World) :
  (∀ payment, get_payment_or_404 payment_id None w = Some payment →
              can_be_refunded payment w = false
              ∨ refund_is_valid payment_id amount reason w = false) →
  (create_refund admin payment_id amount reason w).2 = w
  ∧ (status_code (create_refund admin payment_id amount reason w).1 = 404
     ∨ status_code (create_refund admin payment_id amount reason w).1 = 400).
Proof.
  intros Hrej. unfold create_refund.
  destruct (get_payment_or_404 payment_id None w) as [payment|]; [|by auto].
  destruct (Hrej payment eq_refl) as [Hcan|Hinvalid].
  - rewrite Hcan. by auto.
  - destruct (can_be_refunded payment w); simpl; [|by auto].
    rewrite Hinvalid. by auto.
Qed.

(** X3.  When the provider knows no session, or reports a status other
    than complete and failed, the status check applies no transition:
    the only trace it leaves is the provider call, the payment is
    reported with the status it had and the subscription as not
    activated. *)
Theorem payment_status_no_news (user payment_id : Z) (payment : Payment.t)
        (session_id : string) (w : World) :
  get_payment_or_404 payment_id (Some user) w = Some payment →
  Payment.stripe_session_id payment = Some session_id →
  session_id ≠ EmptyString →
  pending_or_processing (Some (Payment.status payment)) = true →
  (∀ info, retrieve_session session_id = Some info →
           session_status info ≠ "complete"%string
           ∧ session_status info ≠ "failed"%string) →
  payment_status user payment_id w
  = (mkResponse 200 (B_status payment_id (Payment.status payment) false),
     called (Call_retrieve_session session_id) w).
Proof.
  intros Hget Hsid Hne Hstale Hnews. unfold payment_status. rewrite Hget.
  apply get_payment_or_404_Some in Hget as [Hrow Hid].
  rewrite Hsid, Hstale. cbn [truthy from_option id].
  rewrite bool_decide_eq_false_2 by done. cbn [negb andb].
  assert (Hquiet :
    match retrieve_session session_id with
    | Some session_info =>
        if bool_decide (session_status session_info = "complete"%string)
        then process_successful_payment payment
               (called (Call_retrieve_session session_id) w)
        else if bool_decide (session_status session_info = "failed"%string)
        then process_failed_payment payment (Some "Session failed"%string)
               (called (Call_retrieve_session session_id) w)
        else called (Call_retrieve_session session_id) w
    | None => called (Call_retrieve_session session_id) w
    end = called (Call_retrieve_session session_id) w).
  { destruct (retrieve_session session_id) as [info|]; [|done].
    destruct (Hnews info eq_refl) as [Hc Hf].
    by rewrite !bool_decide_eq_false_2 by done. }
  rewrite Hquiet. cbn [payments called]. rewrite Hrow. cbn [from_option id].
  unfold is_successful.
  rewrite bool_decide_eq_false_2, Hid; [done|].
  by destruct (Payment.status payment).
Qed.

(** X4.  Retry is open to failed payments only: for a payment of the
    user in any other status it answers 404 and changes nothing.  For a
    failed one, a session from the gateway makes the view store the
    payment as processing, as one more write on the payment row and
    without any transition operation; without a session the view answers
    400 and writes nothing itself. *)
Theorem retry_payment_cases (FRONTEND_URL : string) (user payment_id : Z)
        (success_url cancel_url : option string) (payment : Payment.t)
        (w : World) :
  get_payment_or_404 payment_id (Some user) w = Some payment →
  (Payment.status payment ≠ PaymentStatus.failed →
   retry_payment FRONTEND_URL user payment_id success_url cancel_url w
   = ((404, C_not_found), w))
  ∧ (Payment.status payment = PaymentStatus.failed →
     ∀ session_data payment' w1,
       StripeService_create_checkout_session payment
         (default (default_success_url FRONTEND_URL) success_url)
         (default (default_cancel_url FRONTEND_URL) cancel_url) w
       = (session_data, payment', w1) →
       let processing :=
         Payment.with_status PaymentStatus.processing payment' in
       (session_created session_data = true →
        (retry_payment FRONTEND_URL user payment_id success_url cancel_url w).1.1
        = 200
        ∧ (retry_payment FRONTEND_URL user payment_id success_url cancel_url w).2
          = logged (if bool_decide (payments w1 !! Payment.id payment' = None)
                    then INSERT T_payment else UPDATE T_payment)
                   (put_payment processing w1)
        ∧ payments
            (retry_payment FRONTEND_URL user payment_id success_url cancel_url w).2
          !! Payment.id payment' = Some processing)
       ∧ (session_created session_data = false →
          retry_payment FRONTEND_URL user payment_id success_url cancel_url w
          = ((400, C_error "Failed to create checkout session"), w1))).
Proof.
  intros Hget. unfold retry_payment, get_failed_payment_or_404.
  rewrite Hget. cbn [mbind option_bind]. split.
  - intros Hst. by rewrite bool_decide_eq_false_2.
  - intros Hst session_data payment' w1 Hgw.
    rewrite bool_decide_eq_true_2 by done. rewrite Hgw. split.
    + intros ->. cbn [fst snd]. split; [done|].
      unfold Payment_save.
      rewrite payment_post_save_other_status by done.
      split; [done|]. cbn [payments logged put_payment].
      apply lookup_insert_eq.
    + by intros ->.
Qed.

(** X5.  The checkout view answers 201 or 400 and nothing else.  When
    the data do not validate, when the plan is unknown or inactive, or
    when the service layer raises, the answer is 400 and the database is
    the one the request found. *)
Theorem create_checkout_session_rejected (FRONTEND_URL : string)
        (plans : gmap Z SubscriptionPlan.t) (user : Z) (data : CheckoutData)
        (w : World) :
  ((create_checkout_session FRONTEND_URL plans user data w).1.1 = 201
   ∨ (create_checkout_session FRONTEND_URL plans user data w).1.1 = 400)
  ∧ (checkout_is_valid user data w = false
     ∨ get_active_plan_or_404 plans (subscription_plan_id data) = None
     ∨ (∃ plan e,
          get_active_plan_or_404 plans (subscription_plan_id data) = Some plan
          ∧ create_subscription_payment user plan w = inl e) →
     (create_checkout_session FRONTEND_URL plans user data w).1.1 = 400
     ∧ (create_checkout_session FRONTEND_URL plans user data w).2 = w).
Proof.
  unfold create_checkout_session. split.
  - destruct (checkout_is_valid user data w); [|by right].
    destruct (get_active_plan_or_404 _ _) as [plan|]; [|by right].
    destruct (create_subscription_payment user plan w)
      as [e|[[payment subscription] w1]]; [by right|].
    destruct (StripeService_create_checkout_session _ _ _ _) as [[sd p'] w2].
    destruct (session_created sd); by auto.
  - intros [Hinvalid | [Hplan | (plan & e & Hplan & Hraise)]].
    + by rewrite Hinvalid.
    + destruct (checkout_is_valid user data w); [|done]. by rewrite Hplan.
    + destruct (checkout_is_valid user data w); [|done].
      by rewrite Hplan, Hraise.
Qed.

(** X6.  When the service layer has opened the payment and the
    subscription and the gateway then returns no session, the checkout
    view answers 400 from inside the transaction block, which commits:
    the database is the one the service layer and the gateway left, rows
    of the unfinished checkout included. *)
Theorem create_checkout_session_without_session (FRONTEND_URL : string)
        (plans : gmap Z SubscriptionPlan.t) (user : Z) (data : CheckoutData)
        (plan : SubscriptionPlan.t) (payment payment' : Payment.t)
        (subscription : Subscription.t) (session_data : option SessionData)
        (w w1 w2 : World) :
  checkout_is_valid user data w = true →
  get_active_plan_or_404 plans (subscription_plan_id data) = Some plan →
  create_subscription_payment user plan w = inr (payment, subscription, w1) →
  StripeService_create_checkout_session payment
    (default (default_success_url FRONTEND_URL) (success_url data))
    (default (default_cancel_url FRONTEND_URL) (cancel_url data)) w1
  = (session_data, payment', w2) →
  session_created session_data = false →
  create_checkout_session FRONTEND_URL plans user data w
  = ((400, C_error "Failed to create checkout session"), w2).
Proof.
  intros Hvalid Hplan Hcreate Hgw Hnone. unfold create_checkout_session.
  by rewrite Hvalid, Hplan, Hcreate, Hgw, Hnone.
Qed.

(** X7.  A payment can be cancelled once: provided [cancel] leaves the
    payments table alone, a second cancellation of the same payment is
    answered 400 and changes nothing. *)
Theorem cancel_payment_twice (user payment_id : Z) (payment : Payment.t)
        (w : World) :
  (∀ s w0, payments (cancel s w0) = payments w0) →
  get_payment_or_404 payment_id (Some user) w = Some payment →
  is_pending payment = true →
  let w' := (cancel_payment user payment_id w).2 in
  (cancel_payment user payment_id w).1
  = mkResponse 200 (B_message "Payment cancelled successfully")
  ∧ cancel_payment user payment_id w'
    = (mkResponse 400 (B_error "Can only cancel pending payments"), w').
Proof.
  intros Hframe Hget Hpending w'.
  pose proof (get_payment_or_404_Some _ _ _ _ Hget) as [Hrow Hid].
  assert (Hfirst : cancel_payment user payment_id w
    = (mkResponse 200 (B_message "Payment cancelled successfully"),
       match payment_subscription payment w with
       | Some subscription =>
           cancel subscription
             (logged (UPDATE T_payment)
                (put_payment
                   (Payment.with_status PaymentStatus.cancelled payment) w))
       | None =>
           logged (UPDATE T_payment)
             (put_payment
                (Payment.with_status PaymentStatus.cancelled payment) w)
       end)).
  { unfold cancel_payment. rewrite Hget, Hpending. cbn [negb].
    rewrite (Payment_save_other_status
               (Payment.with_status PaymentStatus.cancelled payment) payment);
      [done | by simpl; rewrite Hid | done | done]. }
  subst w'. rewrite Hfirst. cbn [fst snd]. split; [done|].
  set (w1 := logged (UPDATE T_payment) _).
  set (w' := match payment_subscription payment w with
             | Some subscription => cancel subscription w1
             | None => w1
             end).
  assert (Hstored : payments w' !! payment_id
                    = Some (Payment.with_status PaymentStatus.cancelled payment)).
  { subst w' w1. destruct (payment_subscription payment w);
      rewrite ?Hframe; cbn [payments logged put_payment];
      rewrite <- Hid; apply lookup_insert_eq. }
  assert (Hget' : get_payment_or_404 payment_id (Some user) w'
                  = Some (Payment.with_status PaymentStatus.cancelled payment)).
  { unfold get_payment_or_404 in Hget |- *. rewrite Hstored. simpl.
    rewrite Hrow in Hget. simpl in Hget.
    rewrite bool_decide_eq_true_2 by done.
    rewrite bool_decide_eq_true_2 in Hget by done.
    by case_bool_decide. }
  clearbody w'. unfold cancel_payment. by rewrite Hget'.
Qed.

(** X8.  A payment that is succeeded or cancelled is out of reach of the
    three views of its owner: the status check neither asks the provider
    nor writes, cancellation is answered 400 and retry 404, each with the
    database unchanged. *)
Theorem terminal_payment_inert (FRONTEND_URL : string) (user payment_id : Z)
        (success_url cancel_url : option string) (payment : Payment.t)
        (w : World) :
  get_payment_or_404 payment_id (Some user) w = Some payment →
  Payment.status payment = PaymentStatus.succeeded
  ∨ Payment.status payment = PaymentStatus.cancelled →
  (payment_status user payment_id w).2 = w
  ∧ cancel_payment user payment_id w
    = (mkResponse 400 (B_error "Can only cancel pending payments"), w)
  ∧ retry_payment FRONTEND_URL user payment_id success_url cancel_url w
    = ((404, C_not_found), w).
Proof.
  intros Hget Hterminal.
  unfold payment_status, cancel_payment, retry_payment,
    get_failed_payment_or_404, is_pending.
  rewrite Hget. cbn [mbind option_bind].
  destruct Hterminal as [-> | ->]; by rewrite andb_false_r.
Qed.

End MoreViewFacts.

Lemma foreign_payment_not_found_witness :
  payment_status (ST := Sample.accepting) 8 1 Sample.checkout
  = (not_found, Sample.checkout)
  ∧ cancel_payment 8 1 Sample.checkout = (not_found, Sample.checkout)
  ∧ retry_payment (CS := Fixture.working_gateway) "https://blog.test" 8 1
                  None None Sample.checkout
    = ((404, C_not_found), Sample.checkout).
Proof.
  apply (foreign_payment_not_found (ST := Sample.accepting)
           (CS := Fixture.working_gateway)).
  intros p Hp. vm_compute in Hp. injection Hp as <-. discriminate.
Defined.

Lemma create_refund_rejected_unchanged_witness :
  (create_refund (ST := Sample.accepting) 99 1 1000 "requested"
                 Sample.checkout).2 = Sample.checkout
  ∧ (create_refund (ST := Sample.accepting) 99 5 1000 "requested"
                   Sample.checkout).2 = Sample.checkout.
Proof.
  split.
  - apply (create_refund_rejected_unchanged (ST := Sample.accepting)).
    intros payment Hget. vm_compute in Hget. injection Hget as <-.
    left. reflexivity.
  - apply (create_refund_rejected_unchanged (ST := Sample.accepting)).
    intros payment Hget. vm_compute in Hget. discriminate.
Defined.

Lemma payment_status_no_news_witness :
  payment_status (ST := Sample.rejecting) 7 1 Sample.checkout
  = (mkResponse 200 (B_status 1 PaymentStatus.pending false),
     called (Call_retrieve_session "cs_1") Sample.checkout).
Proof.
  apply (payment_status_no_news (ST := Sample.rejecting) 7 1 Sample.payment1);
    [reflexivity | reflexivity | done | reflexivity |].
  intros info Hinfo. discriminate.
Defined.

Lemma retry_payment_cases_witness :
  let r := retry_payment (CS := Fixture.working_gateway) "https://blog.test"
                         7 2 None None Fixture.after_failure in
  r.1.1 = 200
  ∧ Payment.status <$> payments r.2 !! 2 = Some PaymentStatus.processing
  ∧ retry_payment (CS := Fixture.working_gateway) "https://blog.test"
                  7 1 None None Sample.checkout
    = ((404, C_not_found), Sample.checkout).
Proof.
  intros r.
  destruct (retry_payment_cases (CS := Fixture.working_gateway)
              "https://blog.test" 7 2 None None Fixture.failed_payment
              Fixture.after_failure eq_refl) as [_ Hfailed].
  destruct (Hfailed eq_refl _ _ _ eq_refl) as [Hok _].
  destruct (Hok eq_refl) as (Hcode & _ & Hrow).
  split; [exact Hcode|]. split; [exact (f_equal (fmap Payment.status) Hrow)|].
  destruct (retry_payment_cases (CS := Fixture.working_gateway)
              "https://blog.test" 7 1 None None Sample.payment1
              Sample.checkout eq_refl) as [Hother _].
  apply Hother. discriminate.
Defined.

Lemma create_checkout_session_rejected_witness :
  create_checkout_session (CS := Fixture.failing_gateway) "https://blog.test"
    Fixture.plans 8 (mkCheckoutData 2 None None) Sample.checkout
  = ((400, C_error "No SubscriptionPlan matches the given query."),
     Sample.checkout).
Proof.
  destruct (create_checkout_session_rejected (CS := Fixture.failing_gateway)
              "https://blog.test" Fixture.plans 8 (mkCheckoutData 2 None None)
              Sample.checkout) as [_ Hrej].
  destruct Hrej as [Hcode Hsame]; [right; left; reflexivity|].
  reflexivity.
Defined.

Lemma create_checkout_session_without_session_witness :
  let r := create_checkout_session (CS := Fixture.failing_gateway)
             "https://blog.test" Fixture.plans 8 (mkCheckoutData 1 None None)
             Fixture.after_failure in
  r.1.1 = 400
  ∧ Payment.status <$> payments r.2 !! 1 = Some PaymentStatus.pending
  ∧ Subscription.status <$> subscriptions r.2 !! 4
    = Some SubscriptionStatus.pending.
Proof.
  intros r. subst r.
  rewrite (create_checkout_session_without_session
             (CS := Fixture.failing_gateway) "https://blog.test" Fixture.plans
             8 (mkCheckoutData 1 None None) _ _ _ _ None _ _ _
             eq_refl eq_refl eq_refl eq_refl eq_refl).
  repeat split; reflexivity.
Defined.

Lemma cancel_payment_twice_witness :
  let w' := (cancel_payment 7 1 Sample.checkout).2 in
  cancel_payment 7 1 w'
  = (mkResponse 400 (B_error "Can only cancel pending payments"), w').
Proof.
  apply (cancel_payment_twice 7 1 Sample.payment1 Sample.checkout);
    [by intros s w0 | reflexivity | reflexivity].
Defined.

Lemma terminal_payment_inert_witness :
  (payment_status (ST := Sample.accepting) 7 1 Sample.paid).2 = Sample.paid
  ∧ cancel_payment 7 1 Sample.paid
    = (mkResponse 400 (B_error "Can only cancel pending payments"), Sample.paid)
  ∧ retry_payment (CS := Fixture.working_gateway) "https://blog.test" 7 1
                  None None Sample.paid
    = ((404, C_not_found), Sample.paid).
Proof.
  apply (terminal_payment_inert (ST := Sample.accepting)
           (CS := Fixture.working_gateway) "https://blog.test" 7 1 None None
           (Payment.with_status PaymentStatus.succeeded Sample.payment1));
    [reflexivity | left; reflexivity].
Defined.

(** ** The clean-up tasks *)

Lemma logged_iter_tables (n : nat) (x : Write) (w : World) :
  payments (Nat.iter n (logged x) w) = payments w
  ∧ refunds (Nat.iter n (logged x) w) = refunds w
  ∧ webhook_events (Nat.iter n (logged x) w) = webhook_events w
  ∧ subscriptions (Nat.iter n (logged x) w) = subscriptions w
  ∧ pinned_posts (Nat.iter n (logged x) w) = pinned_posts w
  ∧ posts (Nat.iter n (logged x) w) = posts w
  ∧ history (Nat.iter n (logged x) w) = history w
  ∧ stripe_calls (Nat.iter n (logged x) w) = stripe_calls w
  ∧ clock (Nat.iter n (logged x) w) = clock w
  ∧ writes (Nat.iter n (logged x) w) = writes w ++ replicate n x.
Proof.
  induction n as [|n IH]; simpl.
  - by rewrite app_nil_r.
  - destruct IH as (-> & -> & -> & -> & -> & -> & -> & -> & -> & ->).
    repeat split; try done.
    rewrite <- app_assoc. f_equal.
    change [x] with (replicate 1 x). rewrite <- replicate_add.
    by rewrite Nat.add_1_r.
Qed.

Lemma cleanup_old_webhook_events_table (w : World) :
  webhook_events (cleanup_old_webhook_events w).2
  = filter (λ kv, ¬ old_event (clock w - 30 * day) kv.2) (webhook_events w).
Proof.
  unfold cleanup_old_webhook_events. cbn [snd].
  by destruct (logged_iter_tables
                 (size (filter (λ kv, old_event (clock w - 30 * day) kv.2)
                               (webhook_events w)))
                 (DELETE T_webhook_event)
                 (set_webhook_events
                    (filter (λ kv, ¬ old_event (clock w - 30 * day) kv.2)
                            (webhook_events w)) w))
    as (_ & _ & -> & _).
Qed.

(** X9.  The event clean-up removes exactly the rows that are processed
    or ignored and older than 30 days: every other row is found
    afterwards as it was, so failed and pending events and events of the
    last 30 days are never deleted; the reported number is the number of
    rows gone, and no other table is touched. *)
Theorem cleanup_old_webhook_events_rows (w : World) :
  let w' := (cleanup_old_webhook_events w).2 in
  (∀ key e,
     webhook_events w' !! key = Some e
     ↔ webhook_events w !! key = Some e
       ∧ ¬ (WebhookEvent.created_at e < clock w - 30 * (24 * 3600)
            ∧ (WebhookEvent.status e = WebhookStatus.processed
               ∨ WebhookEvent.status e = WebhookStatus.ignored)))
  ∧ (cleanup_old_webhook_events w).1
    = Z.of_nat (size (webhook_events w)) - Z.of_nat (size (webhook_events w'))
  ∧ payments w' = payments w
  ∧ subscriptions w' = subscriptions w
  ∧ pinned_posts w' = pinned_posts w
  ∧ refunds w' = refunds w
  ∧ history w' = history w.
Proof.
  intros w'. subst w'. rewrite cleanup_old_webhook_events_table.
  split; [|split].
  - intros key e. by rewrite map_lookup_filter_Some.
  - unfold cleanup_old_webhook_events. cbn [fst].
    rewrite <- (map_filter_union_complement
                  (λ kv, old_event (clock w - 30 * day) kv.2)
                  (webhook_events w)) at 2.
    rewrite map_size_disj_union by apply map_disjoint_filter_complement.
    lia.
  - unfold cleanup_old_webhook_events. cbn [snd].
    by destruct (logged_iter_tables
                   (size (filter (λ kv, old_event (clock w - 30 * day) kv.2)
                                 (webhook_events w)))
                   (DELETE T_webhook_event)
                   (set_webhook_events
                      (filter (λ kv, ¬ old_event (clock w - 30 * day) kv.2)
                              (webhook_events w)) w))
      as (-> & -> & _ & -> & -> & _ & -> & _).
Qed.

(** X10.  Running the event clean-up a second time at the same clock
    finds nothing to delete: it reports 0 and returns the database it
    was given. *)
Theorem cleanup_old_webhook_events_idempotent (w : World) :
  cleanup_old_webhook_events (cleanup_old_webhook_events w).2
  = (0, (cleanup_old_webhook_events w).2).
Proof.
  set (w' := (cleanup_old_webhook_events w).2).
  assert (Hclock : clock w' = clock w).
  { subst w'. unfold cleanup_old_webhook_events. cbn [snd].
    by destruct (logged_iter_tables
                   (size (filter (λ kv, old_event (clock w - 30 * day) kv.2)
                                 (webhook_events w)))
                   (DELETE T_webhook_event)
                   (set_webhook_events
                      (filter (λ kv, ¬ old_event (clock w - 30 * day) kv.2)
                              (webhook_events w)) w))
      as (_ & _ & _ & _ & _ & _ & _ & _ & -> & _). }
  assert (Htable : webhook_events w'
                   = filter (λ kv, ¬ old_event (clock w - 30 * day) kv.2)
                            (webhook_events w))
    by apply cleanup_old_webhook_events_table.
  assert (Hnone : filter (λ kv, old_event (clock w' - 30 * day) kv.2)
                         (webhook_events w') = ∅).
  { apply map_empty. intros key. apply map_lookup_filter_None. right.
    intros e He. rewrite Htable in He.
    apply map_lookup_filter_Some in He as [_ Hkeep]. by rewrite Hclock. }
  assert (Hall : filter (λ kv, ¬ old_event (clock w' - 30 * day) kv.2)
                        (webhook_events w') = webhook_events w').
  { apply map_filter_id. intros key e He. rewrite Htable in He.
    apply map_lookup_filter_Some in He as [_ Hkeep]. by rewrite Hclock. }
  unfold cleanup_old_webhook_events at 1.
  rewrite Hnone, Hall, map_size_empty. cbn [Nat.iter Z.of_nat].
  by destruct w'.
Qed.

(** X11.  The clean-up never takes an event away from the retry task:
    every event the retry task would go through is still stored after
    the clean-up. *)
Theorem cleanup_keeps_retry_candidates (w : World) (e : WebhookEvent.t) :
  e ∈ failed_events w →
  ∃ key, webhook_events (cleanup_old_webhook_events w).2 !! key = Some e.
Proof.
  intros He. unfold failed_events in He. apply subseteq_take in He.
  apply list_elem_of_filter in He as [[Hfailed _] He].
  apply list_elem_of_fmap in He as ([key e'] & -> & He).
  apply elem_of_map_to_list in He. exists key.
  rewrite cleanup_old_webhook_events_table.
  apply map_lookup_filter_Some. split; [done|].
  intros [_ [Hst | Hst]]; simpl in *; congruence.
Qed.

(** X12.  The payment clean-up keeps exactly the rows that are not both
    older than 90 days and failed or cancelled: a pending, processing or
    succeeded payment is kept whatever its age, and so is any payment of
    the last 90 days. *)
Theorem cleanup_old_payments_rows (created_at : Payment.t → Z) (w : World) :
  (∀ key p,
     cleanup_old_payments created_at w !! key = Some p
     ↔ payments w !! key = Some p
       ∧ ¬ (created_at p < clock w - 90 * (24 * 3600)
            ∧ (Payment.status p = PaymentStatus.failed
               ∨ Payment.status p = PaymentStatus.cancelled)))
  ∧ (∀ key p, payments w !! key = Some p →
              pending_or_processing (Some (Payment.status p)) = true
              ∨ Payment.status p = PaymentStatus.succeeded
              ∨ clock w - 90 * (24 * 3600) ≤ created_at p →
              cleanup_old_payments created_at w !! key = Some p).
Proof.
  assert (Hrows : ∀ key p,
     cleanup_old_payments created_at w !! key = Some p
     ↔ payments w !! key = Some p
       ∧ ¬ (created_at p < clock w - 90 * (24 * 3600)
            ∧ (Payment.status p = PaymentStatus.failed
               ∨ Payment.status p = PaymentStatus.cancelled))).
  { intros key p. unfold cleanup_old_payments.
    by rewrite map_lookup_filter_Some. }
  split; [exact Hrows|].
  intros key p Hrow Hkeep. apply Hrows. split; [done|].
  intros [Hold Hst].
  destruct Hkeep as [Hstale | [Hok | Hrecent]].
  - destruct Hst as [Hst | Hst]; rewrite Hst in Hstale; discriminate.
  - destruct Hst as [Hst | Hst]; congruence.
  - lia.
Qed.

Lemma cleanup_old_webhook_events_rows_witness :
  (cleanup_old_webhook_events Fixture.old_and_new_events).1 = 2
  ∧ dom (webhook_events
           (cleanup_old_webhook_events Fixture.old_and_new_events).2)
    = {[ "evt_c"%string; "evt_d"%string; "evt_e"%string ]}.
Proof.
  destruct (cleanup_old_webhook_events_rows Fixture.old_and_new_events)
    as (_ & Hcount & _).
  split; [rewrite Hcount|]; reflexivity.
Defined.

Lemma cleanup_keeps_retry_candidates_witness :
  ∃ key,
    webhook_events (cleanup_old_webhook_events Sample.with_failed_events).2
    !! key = Some (Sample.failed_event "evt_a" 96400).
Proof.
  apply cleanup_keeps_retry_candidates. vm_compute. left.
Defined.

Lemma cleanup_old_payments_rows_witness :
  cleanup_old_payments (λ _, -8000000) Sample.checkout !! 1 = Some Sample.payment1
  ∧ cleanup_old_payments (λ _, -8000000) Fixture.after_failure !! 2 = None.
Proof.
  split; [|reflexivity].
  apply (cleanup_old_payments_rows (λ _, -8000000) Sample.checkout);
    [reflexivity | left; reflexivity].
Defined.

(** ** The receivers of [subscribe/signals.py] *)

Lemma bookkeeping_only_refl (w : World) : bookkeeping_only w w.
Proof. by repeat split. Qed.

Lemma SubscriptionHistory_create_bookkeeping (h : SubscriptionHistory.t)
      (w : World) :
  bookkeeping_only w (SubscriptionHistory_create h w).
Proof. repeat split; try done. simpl. by apply prefix_app_r. Qed.

Lemma pinned_post_pre_delete_bookkeeping (instance : PinnedPost.t) (w : World) :
  bookkeeping_only w (pinned_post_pre_delete instance w).
Proof.
  unfold pinned_post_pre_delete.
  destruct (user_subscription _ w);
    [apply SubscriptionHistory_create_bookkeeping | apply bookkeeping_only_refl].
Qed.

Lemma PinnedPost_delete_bookkeeping (instance : PinnedPost.t) (w : World) :
  bookkeeping_only w (PinnedPost_delete instance w).
Proof.
  pose proof (pinned_post_pre_delete_bookkeeping instance w) as Hb.
  unfold bookkeeping_only in *. unfold PinnedPost_delete. simpl. exact Hb.
Qed.

Section SubscriptionFacts.
Context {MD : Models}.

(** X13.  Whatever the four receivers of the subscription application
    are given, they leave payments, refunds, subscriptions, webhook
    events and posts as they are, they keep every history row already
    written, in order, and they never add a pinned post: the only rows
    they remove are pinned posts and the only rows they add are history
    rows. *)
Theorem receivers_bookkeeping_only (pinned_post : PinnedPost.t)
        (subscription : Subscription.t) (created : bool)
        (attr : option (option SubscriptionStatus.t)) (w : World) :
  (bookkeeping_only w (pinned_post_pre_delete pinned_post w)
   ∧ pinned_posts (pinned_post_pre_delete pinned_post w) = pinned_posts w)
  ∧ (bookkeeping_only w (pinned_post_post_save pinned_post created w)
     ∧ pinned_posts (pinned_post_post_save pinned_post created w)
       ⊆ pinned_posts w)
  ∧ (bookkeeping_only w (subscription_pre_delete subscription w)
     ∧ pinned_posts (subscription_pre_delete subscription w) ⊆ pinned_posts w)
  ∧ (bookkeeping_only w (subscription_post_save subscription created attr w)
     ∧ pinned_posts (subscription_post_save subscription created attr w)
       = pinned_posts w).
Proof.
  split; [|split; [|split]].
  - split; [apply pinned_post_pre_delete_bookkeeping|].
    by destruct (pinned_post_pre_delete_tables pinned_post w) as (-> & _).
  - unfold pinned_post_post_save. destruct created; [|done].
    destruct (user_subscription _ w) as [s|].
    + destruct (is_active s w); cbn [negb].
      * split; [apply SubscriptionHistory_create_bookkeeping | done].
      * split; [apply PinnedPost_delete_bookkeeping|].
        rewrite PinnedPost_delete_pinned_posts. apply delete_subseteq.
    + split; [apply PinnedPost_delete_bookkeeping|].
      rewrite PinnedPost_delete_pinned_posts. apply delete_subseteq.
  - unfold subscription_pre_delete.
    destruct (user_pinned_post _ w) as [pp|]; [|done].
    split; [apply PinnedPost_delete_bookkeeping|].
    rewrite PinnedPost_delete_pinned_posts. apply delete_subseteq.
  - unfold subscription_post_save. destruct created.
    + split; [apply SubscriptionHistory_create_bookkeeping | done].
    + destruct attr as [prev|]; [|done].
      case_bool_decide; [|done].
      split; [apply SubscriptionHistory_create_bookkeeping | done].
Qed.

(** X14.  For a user with an active subscription and nothing pinned,
    creating a pinned post and deleting it again gives back the
    pinned-posts table it started from and leaves an audit trail of
    exactly two history rows, [post_pinned] then [post_unpinned], both
    for the user's subscription and both carrying the id and the title
    of the post. *)
Theorem pin_unpin_audit_trail (user : Z) (post : Post.t)
        (subscription : Subscription.t) (w : World) :
  pinned_posts w !! user = None →
  user_subscription user w = Some subscription →
  is_active subscription
    (logged (INSERT T_pinned_post)
       (put_pinned_post (PinnedPost.mk user post (clock w)) w)) = true →
  let instance := PinnedPost.mk user post (clock w) in
  let pinned := (PinnedPost_create user post w).2 in
  let unpinned := PinnedPost_delete instance pinned in
  (PinnedPost_create user post w).1 = Some instance
  ∧ user_pinned_post user pinned = Some instance
  ∧ pinned_posts unpinned = pinned_posts w
  ∧ ∃ d1 d2,
      history unpinned
      = history w
        ++ [SubscriptionHistory.mk (Subscription.id subscription)
              "post_pinned" d1 (Some (Post.id post, Post.title post));
            SubscriptionHistory.mk (Subscription.id subscription)
              "post_unpinned" d2 (Some (Post.id post, Post.title post))].
Proof.
  intros Hfree Hsub Hactive instance pinned unpinned.
  assert (Hpinned : PinnedPost_create user post w
    = (Some instance,
       SubscriptionHistory_create
         (SubscriptionHistory.mk (Subscription.id subscription) "post_pinned"
            ("Post " +:+ quoted (Post.title post) +:+ " pinned")
            (Some (Post.id post, Post.title post)))
         (logged (INSERT T_pinned_post) (put_pinned_post instance w)))).
  { unfold PinnedPost_create. rewrite Hfree. fold instance.
    unfold pinned_post_post_save.
    change (user_subscription (PinnedPost.user instance) (logged _ _))
      with (user_subscription user w).
    rewrite Hsub. subst instance. by rewrite Hactive. }
  subst unpinned pinned. rewrite Hpinned. cbn [fst snd].
  split; [done|]. split; [|split].
  - unfold user_pinned_post. simpl. rewrite lookup_insert_eq. simpl.
    by rewrite bool_decide_eq_true_2.
  - rewrite PinnedPost_delete_pinned_posts. simpl.
    by apply delete_insert_id.
  - unfold PinnedPost_delete, pinned_post_pre_delete.
    change (user_subscription (PinnedPost.user instance)
              (SubscriptionHistory_create _ _))
      with (user_subscription user w).
    rewrite Hsub. simpl. rewrite <- app_assoc. by eexists _, _.
Qed.

(** ** [subscribe/serializers.py] *)

(** X15.  In the status a user is shown, [can_pin_posts] is [is_active];
    an active subscription implies that there is a subscription; a
    pinned post is shown only with an active subscription, also when a
    row for the user exists; and without a subscription everything is
    false or empty. *)
Theorem subscription_status_consistent (user : Z) (w : World) :
  let d := UserSubscriptionStatusSerializer_to_representation user w in
  can_pin_posts d = data_is_active d
  ∧ (data_is_active d = true → has_subscription d = true)
  ∧ (has_subscription d = true ↔ is_Some (data_subscription d))
  ∧ (is_Some (data_pinned_post d) →
     data_is_active d = true ∧ data_pinned_post d = user_pinned_post user w)
  ∧ (data_is_active d = false → data_pinned_post d = None)
  ∧ (user_subscription user w = None →
     d = mkSubscriptionStatusData false false None None false).
Proof.
  unfold UserSubscriptionStatusSerializer_to_representation. simpl.
  destruct (user_subscription user w) as [s|] eqn:Hs; simpl;
    [destruct (is_active s w); simpl|];
    repeat split; try done; eauto; by intros [? ?].
Qed.

(** X16.  [PinPostSerializer] accepts a post id exactly when the post
    exists, is published and is the user's own, and the status shown to
    the user says that the user can pin posts; it then returns the
    id. *)
Theorem PinPostSerializer_accepts_iff (user : Z) (w : World) (data : Z) :
  (∃ v, PinPostSerializer_is_valid user w data = inr v)
  ↔ (∃ post, posts w !! data = Some post
             ∧ Post.status post = "published"%string
             ∧ Post.author post = user)
    ∧ can_pin_posts (UserSubscriptionStatusSerializer_to_representation user w)
      = true.
Proof.
  unfold PinPostSerializer_is_valid, run_validation. simpl.
  unfold PinPostSerializer_validate_post_id, active_subscription_required,
    UserSubscriptionStatusSerializer_to_representation. simpl.
  destruct (posts w !! data) as [post|]; simpl;
    repeat (case_bool_decide; simpl);
    try (destruct (user_subscription user w) as [s|]; simpl;
         [destruct (is_active s w); simpl|]);
    (split;
     [intros [v Hv]; try discriminate; (split; [by eexists | done])
     |intros [(p & Hp & Hst & Hau) Hcan]; try discriminate;
      try (injection Hp as <-; contradiction); by eexists]).
Qed.

(** X17.  [UnpinPostSerializer] accepts exactly when the user has a
    pinned post, so once that pinned post has been deleted a second
    request to unpin is rejected. *)
Theorem UnpinPostSerializer_accepts_iff (user : Z) (w : World) :
  (UnpinPostSerializer_is_valid user w = inr ()
   ↔ is_Some (user_pinned_post user w))
  ∧ (∀ pinned_post, user_pinned_post user w = Some pinned_post →
       UnpinPostSerializer_is_valid user (PinnedPost_delete pinned_post w)
       = inl "No pinned post found."%string).
Proof.
  unfold UnpinPostSerializer_is_valid. simpl.
  unfold UnpinPostSerializer_validate. split.
  - destruct (user_pinned_post user w); split; try done; eauto;
      by intros [? ?].
  - intros pp Hpp.
    pose proof (unpinned_after_delete user w) as Hgone.
    rewrite Hpp in Hgone. by rewrite Hgone.
Qed.

End SubscriptionFacts.

Lemma pin_unpin_audit_trail_witness :
  let pinned := (PinnedPost_create 7 Sample.post5 Fixture.subscribed).2 in
  pinned_posts
    (PinnedPost_delete (PinnedPost.mk 7 Sample.post5 100000) pinned)
  = pinned_posts Fixture.subscribed
  ∧ SubscriptionHistory.action
      <$> history
            (PinnedPost_delete (PinnedPost.mk 7 Sample.post5 100000) pinned)
    = ["post_pinned"%string; "post_unpinned"%string].
Proof.
  intros pinned.
  destruct (pin_unpin_audit_trail 7 Sample.post5
              (Subscription.mk 3 7 "Pro" 30 SubscriptionStatus.active
                               90000 2682000 false)
              Fixture.subscribed)
    as (_ & _ & Htable & d1 & d2 & Hhistory); [reflexivity ..|].
  split; [exact Htable|].
  exact (f_equal (fmap SubscriptionHistory.action) Hhistory).
Defined.

Lemma subscription_status_consistent_witness :
  UserSubscriptionStatusSerializer_to_representation 8 Sample.paid
  = mkSubscriptionStatusData false false None None false
  ∧ can_pin_posts
      (UserSubscriptionStatusSerializer_to_representation 7 Sample.paid)
    = true.
Proof.
  split; [|reflexivity].
  apply (subscription_status_consistent 8 Sample.paid). reflexivity.
Defined.

Lemma PinPostSerializer_accepts_iff_witness :
  (∃ v, PinPostSerializer_is_valid 7 Fixture.subscribed 5 = inr v)
  ∧ ¬ (∃ v, PinPostSerializer_is_valid 7 Fixture.subscribed 6 = inr v).
Proof.
  split.
  - apply PinPostSerializer_accepts_iff. split; [|reflexivity].
    exists Sample.post5. by repeat split.
  - intros Hacc. apply PinPostSerializer_accepts_iff in Hacc
      as [(post & Hpost & _ & Hauthor) _].
    vm_compute in Hpost. injection Hpost as <-. discriminate.
Defined.

Lemma UnpinPostSerializer_accepts_iff_witness :
  UnpinPostSerializer_is_valid 7 Sample.paid = inr ()
  ∧ UnpinPostSerializer_is_valid 7
      (PinnedPost_delete (PinnedPost.mk 7 Sample.post5 95000) Sample.paid)
    = inl "No pinned post found."%string.
Proof.
  destruct (UnpinPostSerializer_accepts_iff 7 Sample.paid) as [Hiff Hafter].
  split.
  - apply Hiff. by eexists.
  - apply Hafter. reflexivity.
Defined.

(** ** [main/serializers.py] *)

(** X18.  The content shown in a post list is never longer than 203
    characters; a text of at most 200 characters is shown as it is, a
    longer one as its first 200 characters followed by three dots; and
    cutting an already cut text changes nothing.  Characters are code
    points, whatever their encoding. *)
Theorem PostListSerializer_content_bounds (content : list N) :
  (length (PostListSerializer_content content) ≤ 203)%nat
  ∧ ((length content ≤ 200)%nat → PostListSerializer_content content = content)
  ∧ ((200 < length content)%nat →
     PostListSerializer_content content = take 200 content ++ [46; 46; 46]%N)
  ∧ take 200 (PostListSerializer_content content) = take 200 content
  ∧ PostListSerializer_content (PostListSerializer_content content)
    = PostListSerializer_content content.
Proof.
  unfold PostListSerializer_content.
  destruct (decide (200 < length content)%nat) as [Hlong|Hshort].
  - rewrite (bool_decide_eq_true_2 _ Hlong).
    assert (Hlen : length (take 200 content) = 200%nat)
      by (rewrite length_take; lia).
    split; [rewrite length_app, Hlen; simpl; lia|].
    split; [lia|]. split; [done|]. split.
    + by rewrite take_app_length'.
    + rewrite bool_decide_eq_true_2
        by (rewrite length_app, Hlen; simpl; lia).
      by rewrite take_app_length'.
  - rewrite (bool_decide_eq_false_2 _ Hshort).
    split; [lia|]. split; [done|]. split; [lia|]. split; [done|].
    by rewrite (bool_decide_eq_false_2 _ Hshort).
Qed.

Lemma PostListSerializer_content_bounds_witness :
  PostListSerializer_content (replicate 250 97%N)
  = replicate 200 97%N ++ [46; 46; 46]%N
  ∧ PostListSerializer_content (replicate 150 233%N) = replicate 150 233%N
  ∧ PostListSerializer_content (replicate 201 8364%N)
    = replicate 200 8364%N ++ [46; 46; 46]%N.
Proof.
  destruct (PostListSerializer_content_bounds (replicate 250 97%N))
    as (_ & _ & Hlong & _).
  destruct (PostListSerializer_content_bounds (replicate 150 233%N))
    as (_ & Hshort & _).
  destruct (PostListSerializer_content_bounds (replicate 201 8364%N))
    as (_ & _ & Heuro & _).
  split; [rewrite Hlong by (vm_compute; lia); reflexivity|].
  split; [apply Hshort; vm_compute; lia|].
  rewrite Heuro by (vm_compute; lia). reflexivity.
Defined.

(** ** Saving a payment for the first time *)

(** X19.  Saving a payment under a key the table does not have yet is an
    insertion and nothing more: the post-save receiver applies no
    transition to a created payment, whatever its status. *)
Theorem Payment_save_created {PS : PaymentService} (instance : Payment.t)
        (w : World) :
  payments w !! Payment.id instance = None →
  Payment_save instance w = logged (INSERT T_payment) (put_payment instance w)
  ∧ payments (Payment_save instance w) !! Payment.id instance = Some instance.
Proof.
  intros Hnew. unfold Payment_save.
  rewrite (bool_decide_eq_true_2 _ Hnew).
  unfold payment_post_save. cbn [negb]. split; [done|].
  apply lookup_insert_eq.
Qed.

Lemma Payment_save_created_witness :
  Payment_save (Payment.with_status PaymentStatus.succeeded Sample.payment1)
               Fixture.after_failure
  = logged (INSERT T_payment)
           (put_payment
              (Payment.with_status PaymentStatus.succeeded Sample.payment1)
              Fixture.after_failure).
Proof.
  apply (Payment_save_created
           (Payment.with_status PaymentStatus.succeeded Sample.payment1)
           Fixture.after_failure).
  reflexivity.
Defined.
